(** * HealthAuthRecordsSimulation: a shallow embedding

    The Python class [HealthAuthRecordsSimulation] of
    [health_security_simulation.py] is a mock of a permissioned ledger: an
    administrator registers doctors and patients, patients grant and revoke
    consent, doctors append records whose hash is accepted at most once.

    The object's five attributes become one record, the methods become
    computations in a small state-and-exception monad that also collects what
    the method prints, and [try ... except Exception as e] becomes
    [try_except].  A raised exception keeps the state reached at the point of
    the [raise], as in Python. *)

From Stdlib Require Import String Ascii.
From Stdlib Require Import Floats.PrimFloat.
From stdpp Require Import gmap strings list fin_maps pretty.

Local Open Scope string_scope.

(** ** Data model *)

(** The labels ['None'], ['Doctor'] and ['Patient'] stored under ['role']. *)
Inductive Role := NoRole | Doctor | Patient.

Definition role_eqb (a b : Role) : bool :=
  match a, b with
  | NoRole, NoRole | Doctor, Doctor | Patient, Patient => true
  | _, _ => false
  end.

(** A value of [self.persons]: [{'role': ..., 'exists': ...}]. *)
Record Person := mkPerson { role : Role; exists_ : bool }.

(** An element of [self.records]; [rec_time] is the reading of [time.time()]
    taken when the record is built. *)
Record MedRecord := mkRecord {
  rec_id : nat;
  rec_patient : string;
  rec_doctor : string;
  rec_hash : string;
  rec_time : float
}.

(** The attributes assigned by [__init__]. *)
Record State := mkState {
  admin : string;
  persons : gmap string Person;
  access_granted : gmap string (gmap string bool);
  records : list MedRecord;
  recorded_hashes : gset string
}.

(** ** Exceptions, console lines, returned values *)

(** One constructor per [raise Exception("...")] of the class, and the
    [KeyError] of a subscript on a missing key. *)
Inductive exn :=
| ExOnlyAdmin
| ExOnlyDoctor
| ExOnlyPatient
| ExZeroAddress
| ExInvalidDoctor
| ExNotGranted
| ExInvalidPatient
| ExAccessNotGranted
| ExHashExists
| KeyError (key : string).

(** [str(e)]: the message the exception was built with. *)
Definition str (e : exn) : string :=
  match e with
  | ExOnlyAdmin => "only admin"
  | ExOnlyDoctor => "only doctor"
  | ExOnlyPatient => "only patient"
  | ExZeroAddress => "zero address"
  | ExInvalidDoctor => "invalid doctor"
  | ExNotGranted => "not granted"
  | ExInvalidPatient => "invalid patient"
  | ExAccessNotGranted => "access not granted by patient"
  | ExHashExists => "record hash already exists (data replay blocked)"
  | KeyError k => "'" ++ k ++ "'"
  end.

(** The error kinds of the specification, and the kind each exception of the
    class stands for. *)
Inductive ErrorKind :=
| Unauthorized
| InvalidIdentity
| InvalidCounterparty
| NotGranted
| AccessDenied
| ReplayDetected.

Definition kind (e : exn) : option ErrorKind :=
  match e with
  | ExOnlyAdmin | ExOnlyDoctor | ExOnlyPatient => Some Unauthorized
  | ExZeroAddress => Some InvalidIdentity
  | ExInvalidDoctor | ExInvalidPatient => Some InvalidCounterparty
  | ExNotGranted => Some NotGranted
  | ExAccessNotGranted => Some AccessDenied
  | ExHashExists => Some ReplayDetected
  | KeyError _ => None
  end.

(** A line written by one of the helpers [print_info], [print_success] and
    [print_fail]; the colour codes and the glyph each helper adds are left
    out, the message is kept. *)
Inductive Line :=
| Info (msg : string)
| Success (msg : string)
| Blocked (msg : string).

(** What a method hands back to its caller.  No method of the class has a
    [return] statement, so each one returns [None]. *)
Inductive pyval := PyNone | PyInt (n : nat).

(** ** The monad of method bodies *)

Record Res (A : Type) := mkRes {
  value : exn + A;
  after : State;
  out : list Line
}.
Arguments mkRes {A} _ _ _.
Arguments value {A} _.
Arguments after {A} _.
Arguments out {A} _.

Definition M (A : Type) : Type := State → Res A.

#[global] Instance M_ret : MRet M := λ A a s, mkRes (inr a) s [].

(** What was printed before the rest of a body ran comes first. *)
Definition printed_before {A} (o : list Line) (r : Res A) : Res A :=
  match r with
  | mkRes v s o' => mkRes v s (o ++ o')
  end.

#[global] Instance M_bind : MBind M := λ A B k m s,
  match m s with
  | mkRes (inl e) s' o => mkRes (inl e) s' o
  | mkRes (inr a) s' o => printed_before o (k a s')
  end.

Definition raise {A} (e : exn) : M A := λ s, mkRes (inl e) s [].
Definition get : M State := λ s, mkRes (inr s) s [].
Definition modify (f : State → State) : M unit := λ s, mkRes (inr tt) (f s) [].
(** A call of [print_info], [print_success] or [print_fail].  The console is
    taken to accept every text: the built-in [print] raising on a text the
    console cannot encode is not part of this model. *)
Definition print (l : Line) : M unit := λ s, mkRes (inr tt) s [l].

(** [if c: raise e] *)
Definition raise_if (c : bool) (e : exn) : M unit :=
  if c then raise e else mret tt.

(** [if c: body] *)
Definition when (c : bool) (body : M unit) : M unit :=
  if c then body else mret tt.

(** [try: m  except Exception as e: h e] *)
Definition try_except {A} (m : M A) (h : exn → M A) : M A := λ s,
  match m s with
  | mkRes (inl e) s' o => printed_before o (h e s')
  | mkRes (inr a) s' o => mkRes (inr a) s' o
  end.

(** Attribute assignment. *)
Definition set_admin (a : string) (s : State) : State :=
  mkState a (persons s) (access_granted s) (records s) (recorded_hashes s).
Definition set_persons (p : gmap string Person) (s : State) : State :=
  mkState (admin s) p (access_granted s) (records s) (recorded_hashes s).
Definition set_access_granted (g : gmap string (gmap string bool)) (s : State)
  : State :=
  mkState (admin s) (persons s) g (records s) (recorded_hashes s).
Definition set_records (l : list MedRecord) (s : State) : State :=
  mkState (admin s) (persons s) (access_granted s) l (recorded_hashes s).
Definition set_recorded_hashes (h : gset string) (s : State) : State :=
  mkState (admin s) (persons s) (access_granted s) (records s) h.

(** ** Python idioms used by the class *)

(** Truth value of an address: the empty string is false. *)
Definition truthy (a : string) : bool := negb (String.eqb a "").

(** [p and p['exists'] and p['role'] == r], for [p = self.persons.get(a)]. *)
Definition holds_role (p : option Person) (r : Role) : bool :=
  match p with
  | Some q => exists_ q && role_eqb (role q) r
  | None => false
  end.

(** [self.access_granted.get(patient, {}).get(doctor, False)] *)
Definition is_granted (s : State) (patient doctor : string) : bool :=
  default false (default ∅ (access_granted s !! patient) !! doctor).

(** [d[k]] in a context that reads the entry: [KeyError] when absent. *)
Definition getitem {V} (d : gmap string V) (k : string) : M V :=
  match d !! k with
  | Some v => mret v
  | None => raise (KeyError k)
  end.

(** A byte of the form [10xxxxxx]: inside the UTF-8 encoding of a character,
    never at its start. *)
Definition is_continuation (c : ascii) : bool :=
  match c with
  | Ascii _ _ _ _ _ _ false true => true
  | _ => false
  end.

(** [s[:n]] for a Python [str] held as its UTF-8 bytes: the bytes of the
    first [n] characters. *)
Fixpoint take_chars (n : nat) (s : string) : string :=
  match s with
  | EmptyString => EmptyString
  | String c s' =>
      if is_continuation c then String c (take_chars n s')
      else match n with
           | O => EmptyString
           | S n' => String c (take_chars n' s')
           end
  end.

(** [record_hash[:10]] *)
Definition prefix10 (h : string) : string := take_chars 10 h.

(** ** The class *)

(** [__init__]: the object built for [admin_addr]. *)
Definition init (admin_addr : string) : State :=
  mkState admin_addr {[admin_addr := mkPerson NoRole true]} ∅ [] ∅.

(** The line [__init__] prints. *)
Definition init_out (admin_addr : string) : list Line :=
  [Info ("Contract Deployed. Admin is " ++ admin_addr)].

Definition _only_admin (sender : string) : M unit :=
  s ← get;
  raise_if (negb (String.eqb sender (admin s))) ExOnlyAdmin.

Definition _only_doctor (sender : string) : M unit :=
  s ← get;
  let p := persons s !! sender in
  raise_if (negb (holds_role p Doctor)) ExOnlyDoctor.

Definition _only_patient (sender : string) : M unit :=
  s ← get;
  let p := persons s !! sender in
  raise_if (negb (holds_role p Patient)) ExOnlyPatient.

Definition register_doctor (sender doctor_addr : string) : M pyval :=
  _only_admin sender;;
  raise_if (negb (truthy doctor_addr)) ExZeroAddress;;
  modify (λ s, set_persons (<[doctor_addr := mkPerson Doctor true]> (persons s)) s);;
  print (Success ("Doctor registered: " ++ doctor_addr));;
  mret PyNone.

Definition register_patient (sender patient_addr : string) : M pyval :=
  _only_admin sender;;
  raise_if (negb (truthy patient_addr)) ExZeroAddress;;
  modify (λ s, set_persons (<[patient_addr := mkPerson Patient true]> (persons s)) s);;
  print (Success ("Patient registered: " ++ patient_addr));;
  mret PyNone.

Definition grant_access (sender doctor_addr : string) : M pyval :=
  _only_patient sender;;
  s ← get;
  let doc := persons s !! doctor_addr in
  raise_if (negb (holds_role doc Doctor)) ExInvalidDoctor;;
  s ← get;
  when (bool_decide (access_granted s !! sender = None))
       (modify (λ s, set_access_granted (<[sender := ∅]> (access_granted s)) s));;
  s ← get;
  inner ← getitem (access_granted s) sender;
  modify (λ s, set_access_granted
                 (<[sender := <[doctor_addr := true]> inner]> (access_granted s)) s);;
  print (Success ("Patient " ++ sender ++ " granted access to " ++ doctor_addr));;
  mret PyNone.

Definition revoke_access (sender doctor_addr : string) : M pyval :=
  _only_patient sender;;
  s ← get;
  raise_if (negb (is_granted s sender doctor_addr)) ExNotGranted;;
  s ← get;
  inner ← getitem (access_granted s) sender;
  modify (λ s, set_access_granted
                 (<[sender := <[doctor_addr := false]> inner]> (access_granted s)) s);;
  print (Success ("Patient " ++ sender ++ " revoked access from " ++ doctor_addr));;
  mret PyNone.

(** The [try] block of [add_record]; [now] is what [time.time()] reads. *)
Definition add_record_try (sender patient_addr record_hash : string)
    (now : float) : M unit :=
  _only_doctor sender;;
  s ← get;
  let pat := persons s !! patient_addr in
  raise_if (negb (holds_role pat Patient)) ExInvalidPatient;;
  s ← get;
  raise_if (negb (is_granted s patient_addr sender)) ExAccessNotGranted;;
  s ← get;
  raise_if (bool_decide (record_hash ∈ recorded_hashes s)) ExHashExists;;
  s ← get;
  let rec_id := length (records s) in
  let new_record := mkRecord rec_id patient_addr sender record_hash now in
  modify (λ s, set_records (records s ++ [new_record]) s);;
  modify (λ s, set_recorded_hashes ({[record_hash]} ∪ recorded_hashes s) s);;
  print (Success ("Record #" ++ pretty rec_id ++ " added by " ++ sender
                  ++ ". Hash: " ++ prefix10 record_hash ++ "...")).

(** The [except Exception as e] handler shared by [add_record] and
    [change_admin]. *)
Definition reverted (e : exn) : Line :=
  Blocked ("Transaction Reverted: " ++ str e).

Definition add_record (sender patient_addr record_hash : string)
    (now : float) : M pyval :=
  try_except (add_record_try sender patient_addr record_hash now)
             (λ e, print (reverted e));;
  mret PyNone.

Definition set_role (r : Role) (p : Person) : Person := mkPerson r (exists_ p).

(** The [try] block of [change_admin]. *)
Definition change_admin_try (sender new_admin : string) : M unit :=
  _only_admin sender;;
  raise_if (negb (truthy new_admin)) ExZeroAddress;;
  s ← get;
  let old := admin s in
  s ← get;
  when (bool_decide (is_Some (persons s !! old)))
       (modify (λ s, set_persons (alter (set_role NoRole) old (persons s)) s));;
  modify (set_admin new_admin);;
  modify (λ s, set_persons (<[new_admin := mkPerson NoRole true]> (persons s)) s);;
  print (Success ("Admin changed from " ++ old ++ " to " ++ new_admin)).

Definition change_admin (sender new_admin : string) : M pyval :=
  try_except (change_admin_try sender new_admin)
             (λ e, print (reverted e));;
  mret PyNone.

(** ** Calls and traces *)

(** One call of a method by the harness. *)
Inductive Op :=
| RegisterDoctor (sender doctor_addr : string)
| RegisterPatient (sender patient_addr : string)
| GrantAccess (sender doctor_addr : string)
| RevokeAccess (sender doctor_addr : string)
| AddRecord (sender patient_addr record_hash : string) (now : float)
| ChangeAdmin (sender new_admin : string).

Definition call (op : Op) : M pyval :=
  match op with
  | RegisterDoctor a d => register_doctor a d
  | RegisterPatient a p => register_patient a p
  | GrantAccess p d => grant_access p d
  | RevokeAccess p d => revoke_access p d
  | AddRecord d p h t => add_record d p h t
  | ChangeAdmin a n => change_admin a n
  end.

(** The object after a call, whether the call returned or raised. *)
Definition step (s : State) (op : Op) : State := after (call op s).

Definition run (ops : list Op) (s : State) : State := foldl step s ops.

(** Everything printed along a sequence of calls each of which returns. *)
Fixpoint transcript (ops : list Op) (s : State) : list Line :=
  match ops with
  | [] => []
  | op :: ops' => out (call op s) ++ transcript ops' (step s op)
  end.

(** States an object can be in: built by [__init__], then any calls. *)
Definition reachable (s : State) : Prop :=
  ∃ admin_addr ops, s = run ops (init admin_addr).

(** ** The preconditions of [add_record], in the order of the source *)

(** The four conditions tested by the [try] block, each with the exception
    raised when it does not hold. *)
Definition checks (s : State) (sender patient_addr record_hash : string)
  : list (bool * exn) :=
  [ (holds_role (persons s !! sender) Doctor, ExOnlyDoctor);
    (holds_role (persons s !! patient_addr) Patient, ExInvalidPatient);
    (is_granted s patient_addr sender, ExAccessNotGranted);
    (negb (bool_decide (record_hash ∈ recorded_hashes s)), ExHashExists) ].

(** The exception of the earliest condition that is false, if any. *)
Fixpoint first_violated (cs : list (bool * exn)) : option exn :=
  match cs with
  | [] => None
  | (true, _) :: cs' => first_violated cs'
  | (false, e) :: _ => Some e
  end.

(** The object after a call of [add_record] that passes every check. *)
Definition committed (s : State) (sender patient_addr record_hash : string)
    (now : float) : State :=
  set_recorded_hashes ({[record_hash]} ∪ recorded_hashes s)
    (set_records
       (records s ++ [mkRecord (length (records s)) patient_addr sender
                                record_hash now]) s).

Definition added_line (s : State) (sender record_hash : string) : Line :=
  Success ("Record #" ++ pretty (length (records s)) ++ " added by " ++ sender
           ++ ". Hash: " ++ prefix10 record_hash ++ "...").

(** ** Notions used to state the properties *)

(** The consent matrix after [self.access_granted[patient][doctor] = b]. *)
Definition with_consent (b : bool) (patient doctor : string) (s : State)
  : State :=
  set_access_granted
    (<[patient := <[doctor := b]> (default ∅ (access_granted s !! patient))]>
       (access_granted s)) s.

(** The object after a call of [change_admin] that passes both checks. *)
Definition transferred (new_admin : string) (s : State) : State :=
  set_persons
    (<[new_admin := mkPerson NoRole true]>
       (alter (set_role NoRole) (admin s) (persons s)))
    (set_admin new_admin s).

(** The conditions a method tests before it changes anything, in the order
    of the source, each with the exception raised when it is false. *)
Definition preconditions (s : State) (op : Op) : list (bool * exn) :=
  match op with
  | RegisterDoctor a d | RegisterPatient a d =>
      [ (String.eqb a (admin s), ExOnlyAdmin); (truthy d, ExZeroAddress) ]
  | GrantAccess p d =>
      [ (holds_role (persons s !! p) Patient, ExOnlyPatient);
        (holds_role (persons s !! d) Doctor, ExInvalidDoctor) ]
  | RevokeAccess p d =>
      [ (holds_role (persons s !! p) Patient, ExOnlyPatient);
        (is_granted s p d, ExNotGranted) ]
  | AddRecord d p h _ => checks s d p h
  | ChangeAdmin a n =>
      [ (String.eqb a (admin s), ExOnlyAdmin); (truthy n, ExZeroAddress) ]
  end.

(** The methods whose body is wrapped in [try ... except Exception]. *)
Definition catches (op : Op) : bool :=
  match op with
  | AddRecord _ _ _ _ | ChangeAdmin _ _ => true
  | _ => false
  end.

(** The object after a call that passes its preconditions. *)
Definition effect (s : State) (op : Op) : State :=
  match op with
  | RegisterDoctor _ d =>
      set_persons (<[d := mkPerson Doctor true]> (persons s)) s
  | RegisterPatient _ p =>
      set_persons (<[p := mkPerson Patient true]> (persons s)) s
  | GrantAccess p d => with_consent true p d s
  | RevokeAccess p d => with_consent false p d s
  | AddRecord d p h t => committed s d p h t
  | ChangeAdmin _ n => transferred n s
  end.

(** The state in which the doctor ["D"] holds the consent of the patient
    ["P"], both registered by the administrator ["A"]. *)
Definition consenting : State :=
  run [RegisterDoctor "A" "D"; RegisterPatient "A" "P"; GrantAccess "P" "D"]
      (init "A").

(** The calls that assign neither [self.persons] nor [self.admin]. *)
Definition keeps_roles (op : Op) : bool :=
  match op with
  | GrantAccess _ _ | RevokeAccess _ _ | AddRecord _ _ _ _ => true
  | _ => false
  end.

(** The value stored for a pair in [self.access_granted], if any. *)
Definition consent_entry (s : State) (patient doctor : string) : option bool :=
  access_granted s !! patient ≫= (λ inner, inner !! doctor).

(** Every record sits at the index that is its [id]. *)
Definition dense_ids (l : list MedRecord) : Prop :=
  ∀ i rec, l !! i = Some rec → rec_id rec = i.

(** The administrator has an entry, marked existing, with role ['None']. *)
Definition admin_roleless (s : State) : bool :=
  holds_role (persons s !! admin s) NoRole.

(** The administrator has an entry whose ['exists'] is true. *)
Definition admin_exists (s : State) : bool :=
  match persons s !! admin s with
  | Some q => exists_ q
  | None => false
  end.

(** A registration in which the administrator names its own address. *)
Definition registers_admin (s : State) (op : Op) : bool :=
  match op with
  | RegisterDoctor a d | RegisterPatient a d =>
      String.eqb a (admin s) && String.eqb d (admin s)
  | _ => false
  end.

(** No call of the sequence, started in [s], is such a registration. *)
Fixpoint never_registers_admin (ops : list Op) (s : State) : bool :=
  match ops with
  | [] => true
  | op :: ops' =>
      negb (registers_admin s op) && never_registers_admin ops' (step s op)
  end.

(** The calls of [run_simulation], in order. *)
Definition ALICE : string := "0xAlice_Admin".
Definition BOB : string := "0xBob_Doctor".
Definition CHARLIE : string := "0xCharlie_Patient".
Definition EVE : string := "0xEve_The_Hacker".

Definition story (t1 t2 t3 t4 : float) : list Op :=
  [ RegisterDoctor ALICE BOB;
    RegisterPatient ALICE CHARLIE;
    AddRecord BOB CHARLIE "Hash_Xray_001" t1;
    GrantAccess CHARLIE BOB;
    AddRecord BOB CHARLIE "Hash_Xray_001" t2;
    AddRecord BOB CHARLIE "Hash_Xray_001" t3;
    ChangeAdmin EVE EVE;
    RevokeAccess CHARLIE BOB;
    AddRecord BOB CHARLIE "Hash_BloodTest_002" t4 ].

(** ** The console helpers *)

(** The character written ['\033'] in the source, and the line feed. *)
Definition ESC : string := String (ascii_of_nat 27) "".
Definition LF : string := String (ascii_of_nat 10) "".

(** The class [Colors]. *)
Module Colors.
Definition HEADER : string := ESC ++ "[95m".
Definition OKBLUE : string := ESC ++ "[94m".
Definition OKCYAN : string := ESC ++ "[96m".
Definition OKGREEN : string := ESC ++ "[92m".
Definition WARNING : string := ESC ++ "[93m".
Definition FAIL : string := ESC ++ "[91m".
Definition ENDC : string := ESC ++ "[0m".
Definition BOLD : string := ESC ++ "[1m".
Definition UNDERLINE : string := ESC ++ "[4m".
End Colors.

(** The text each helper hands to the built-in [print]; the glyphs are the
    bytes of their UTF-8 encoding. *)
Definition print_step (msg : string) : string :=
  LF ++ Colors.HEADER ++ "=== " ++ msg ++ " ===" ++ Colors.ENDC.
Definition print_success (msg : string) : string :=
  Colors.OKGREEN ++ "✔ SUCCESS: " ++ msg ++ Colors.ENDC.
Definition print_fail (msg : string) : string :=
  Colors.FAIL ++ "✘ BLOCKED: " ++ msg ++ Colors.ENDC.
Definition print_info (msg : string) : string :=
  Colors.OKCYAN ++ "ℹ " ++ msg ++ Colors.ENDC.
Definition print_attack (msg : string) : string :=
  Colors.WARNING ++ "☠ ATTACK: " ++ msg ++ Colors.ENDC.

(** The text that reaches the console for a line of the contract. *)
Definition render (l : Line) : string :=
  match l with
  | Info msg => print_info msg
  | Success msg => print_success msg
  | Blocked msg => print_fail msg
  end.

(** ** The script [run_simulation] *)

(** A statement of the script: a [print], directly or through a helper, with
    the text printed; a [time.sleep]; a call of a method of the contract. *)
Inductive Stmt :=
| Say (text : string)
| Sleep (seconds : nat)
| Do (op : Op).

(** How a script ends: the exception that escaped, if any, the contract it
    leaves and everything that was printed. *)
Record Run := mkRun {
  escaped : option exn;
  contract : State;
  console : list string
}.

Definition said_before (o : list string) (r : Run) : Run :=
  mkRun (escaped r) (contract r) (o ++ console r).

(** The statements run in order; the first method that raises ends the
    script, nothing in [run_simulation] catches. *)
Fixpoint play (stmts : list Stmt) (s : State) : Run :=
  match stmts with
  | [] => mkRun None s []
  | Say text :: rest => said_before [text] (play rest s)
  | Sleep _ :: rest => play rest s
  | Do op :: rest =>
      let r := call op s in
      match value r with
      | inl e => mkRun (Some e) (after r) (render <$> out r)
      | inr _ => said_before (render <$> out r) (play rest (after r))
      end
  end.

(** The body of [run_simulation] after the contract is deployed; [t1] to
    [t4] are the readings of [time.time()] at the four calls of
    [add_record]. *)
Definition scenes (t1 t2 t3 t4 : float) : list Stmt :=
  [ Say (print_step "SCENE 1: Setup & Registration");
    Do (RegisterDoctor ALICE BOB);
    Do (RegisterPatient ALICE CHARLIE);
    Say (print_step "SCENE 2: Access Control");
    Say (print_info "Dr. Bob tries to write data before Charlie grants access...");
    Do (AddRecord BOB CHARLIE "Hash_Xray_001" t1);
    Say (print_info "Charlie grants access now...");
    Do (GrantAccess CHARLIE BOB);
    Say (print_info "Dr. Bob tries to write data again...");
    Do (AddRecord BOB CHARLIE "Hash_Xray_001" t2);
    Sleep 1;
    Say (print_step "SCENE 3: The Replay Attack");
    Say (print_attack "Eve intercepts the transaction for 'Hash_Xray_001'.");
    Say (print_attack "Eve tries to replay (re-submit) the exact same data to confuse the system.");
    Do (AddRecord BOB CHARLIE "Hash_Xray_001" t3);
    Say (print_info "The contract logic `require(!recordedHashes[recordHash])` prevented duplication.");
    Sleep 1;
    Say (print_step "SCENE 4: Privilege Escalation Attempt");
    Say (print_attack "Eve is tired of games. She attempts to call `changeAdmin` to make herself the boss.");
    Do (ChangeAdmin EVE EVE);
    Say (print_info "The `onlyAdmin` modifier successfully blocked Eve.");
    Sleep 1;
    Say (print_step "SCENE 5: Revoking Access");
    Say (print_info "Charlie is unhappy with Dr. Bob. He revokes access.");
    Do (RevokeAccess CHARLIE BOB);
    Say (print_info "Dr. Bob tries to add a new record (Hash_BloodTest_002)...");
    Do (AddRecord BOB CHARLIE "Hash_BloodTest_002" t4);
    Say (print_step "SIMULATION COMPLETE") ].

(** [run_simulation]: the first line, the deployment for Alice, then the
    scenes.  The pause that precedes the deployment in the source is played
    right after it; it prints nothing and touches no object. *)
Definition run_simulation (t1 t2 t3 t4 : float) : Run :=
  said_before
    [ Colors.BOLD ++ "Starting 'HealthAuthRecords' Smart Contract Simulation..."
      ++ Colors.ENDC ]
    (said_before (render <$> init_out ALICE)
       (play (Sleep 1 :: scenes t1 t2 t3 t4) (init ALICE))).

(** ** Further notions *)


(** The address a call is made from. *)
Definition sender_of (op : Op) : string :=
  match op with
  | RegisterDoctor a _ | RegisterPatient a _ | ChangeAdmin a _ => a
  | GrantAccess p _ | RevokeAccess p _ => p
  | AddRecord d _ _ _ => d
  end.

(** The address has an entry in [self.persons]. *)
Definition known (s : State) (a : string) : Prop := is_Some (persons s !! a).

(** Every address named in the consent matrix or in a record has an entry
    in [self.persons]. *)
Definition references_known (s : State) : Prop :=
  (∀ p d b, consent_entry s p d = Some b → known s p ∧ known s d)
  ∧ (∀ rec, rec ∈ records s → known s (rec_patient rec) ∧ known s (rec_doctor rec)).

(** [self.recorded_hashes] holds exactly the hashes of the records, and no
    two records have the same hash. *)
Definition ledger_consistent (s : State) : Prop :=
  recorded_hashes s = list_to_set (rec_hash <$> records s)
  ∧ NoDup (rec_hash <$> records s).

(** Every entry of [self.persons] has ['exists'] true. *)
Definition all_exist (s : State) : Prop :=
  ∀ a q, persons s !! a = Some q → exists_ q = true.

(** ** Unfolding the monad *)

Ltac unfold_monad :=
  unfold mbind, M_bind, mret, M_ret, raise_if, when, raise, get, modify,
    print, getitem, try_except, printed_before.

#[local] Arguments pretty : simpl never.

Lemma add_record_try_eq sender patient_addr record_hash now s :
  add_record_try sender patient_addr record_hash now s =
  match first_violated (checks s sender patient_addr record_hash) with
  | Some e => mkRes (inl e) s []
  | None => mkRes (inr tt) (committed s sender patient_addr record_hash now)
                  [added_line s sender record_hash]
  end.
Proof.
  unfold add_record_try, _only_doctor, checks, first_violated.
  unfold_monad.
  destruct (holds_role (persons s !! sender) Doctor); cbn; [|done].
  destruct (holds_role (persons s !! patient_addr) Patient); cbn; [|done].
  destruct (is_granted s patient_addr sender); cbn; [|done].
  destruct (bool_decide (record_hash ∈ recorded_hashes s)); cbn; done.
Qed.

Lemma add_record_eq sender patient_addr record_hash now s :
  add_record sender patient_addr record_hash now s =
  match first_violated (checks s sender patient_addr record_hash) with
  | Some e => mkRes (inr PyNone) s [reverted e]
  | None => mkRes (inr PyNone) (committed s sender patient_addr record_hash now)
                  [added_line s sender record_hash]
  end.
Proof.
  unfold add_record. unfold mbind at 1. unfold M_bind, try_except.
  rewrite add_record_try_eq.
  destruct (first_violated _); reflexivity.
Qed.

Lemma register_doctor_eq sender doctor_addr s :
  register_doctor sender doctor_addr s =
  if negb (String.eqb sender (admin s)) then mkRes (inl ExOnlyAdmin) s []
  else if negb (truthy doctor_addr) then mkRes (inl ExZeroAddress) s []
  else mkRes (inr PyNone)
         (set_persons (<[doctor_addr := mkPerson Doctor true]> (persons s)) s)
         [Success ("Doctor registered: " ++ doctor_addr)].
Proof.
  unfold register_doctor, _only_admin. unfold_monad.
  destruct (String.eqb sender (admin s)); cbn; [|done].
  destruct (truthy doctor_addr); cbn; done.
Qed.

Lemma register_patient_eq sender patient_addr s :
  register_patient sender patient_addr s =
  if negb (String.eqb sender (admin s)) then mkRes (inl ExOnlyAdmin) s []
  else if negb (truthy patient_addr) then mkRes (inl ExZeroAddress) s []
  else mkRes (inr PyNone)
         (set_persons (<[patient_addr := mkPerson Patient true]> (persons s)) s)
         [Success ("Patient registered: " ++ patient_addr)].
Proof.
  unfold register_patient, _only_admin. unfold_monad.
  destruct (String.eqb sender (admin s)); cbn; [|done].
  destruct (truthy patient_addr); cbn; done.
Qed.

Lemma grant_access_eq sender doctor_addr s :
  grant_access sender doctor_addr s =
  if negb (holds_role (persons s !! sender) Patient)
  then mkRes (inl ExOnlyPatient) s []
  else if negb (holds_role (persons s !! doctor_addr) Doctor)
  then mkRes (inl ExInvalidDoctor) s []
  else mkRes (inr PyNone) (with_consent true sender doctor_addr s)
         [Success ("Patient " ++ sender ++ " granted access to " ++ doctor_addr)].
Proof.
  unfold grant_access, _only_patient, with_consent. unfold_monad.
  destruct (holds_role (persons s !! sender) Patient); cbn; [|done].
  destruct (holds_role (persons s !! doctor_addr) Doctor); cbn; [|done].
  destruct (access_granted s !! sender) as [inner|] eqn:Hin; cbn.
  - rewrite Hin. cbn. done.
  - rewrite lookup_insert_eq. cbn. unfold set_access_granted; cbn.
    by rewrite insert_insert_eq.
Qed.

Lemma is_granted_lookup s patient doctor :
  is_granted s patient doctor = true →
  ∃ inner, access_granted s !! patient = Some inner ∧ inner !! doctor = Some true.
Proof.
  unfold is_granted. destruct (access_granted s !! patient) as [inner|]; cbn.
  - destruct (inner !! doctor) as [[]|] eqn:E; cbn; try done. eauto.
  - by rewrite lookup_empty.
Qed.

Lemma revoke_access_eq sender doctor_addr s :
  revoke_access sender doctor_addr s =
  if negb (holds_role (persons s !! sender) Patient)
  then mkRes (inl ExOnlyPatient) s []
  else if negb (is_granted s sender doctor_addr)
  then mkRes (inl ExNotGranted) s []
  else mkRes (inr PyNone) (with_consent false sender doctor_addr s)
         [Success ("Patient " ++ sender ++ " revoked access from " ++ doctor_addr)].
Proof.
  unfold revoke_access, _only_patient, with_consent. unfold_monad.
  destruct (holds_role (persons s !! sender) Patient); cbn; [|done].
  destruct (is_granted s sender doctor_addr) eqn:G; cbn; [|done].
  apply is_granted_lookup in G as (inner & Hin & _).
  rewrite Hin. cbn. done.
Qed.

Lemma change_admin_try_eq sender new_admin s :
  change_admin_try sender new_admin s =
  if negb (String.eqb sender (admin s)) then mkRes (inl ExOnlyAdmin) s []
  else if negb (truthy new_admin) then mkRes (inl ExZeroAddress) s []
  else mkRes (inr tt) (transferred new_admin s)
         [Success ("Admin changed from " ++ admin s ++ " to " ++ new_admin)].
Proof.
  unfold change_admin_try, _only_admin, transferred. unfold_monad.
  destruct (String.eqb sender (admin s)); cbn; [|done].
  destruct (truthy new_admin); cbn; [|done].
  case_bool_decide as Hold; cbn; [done|].
  f_equal. unfold set_persons, set_admin; cbn. f_equal. f_equal.
  symmetry. apply map_eq. intros k. rewrite lookup_alter.
  case_decide; [|done]. subst k.
  destruct (persons s !! admin s) eqn:E; [|done].
  exfalso. apply Hold. eauto.
Qed.

Lemma change_admin_eq sender new_admin s :
  change_admin sender new_admin s =
  if negb (String.eqb sender (admin s))
  then mkRes (inr PyNone) s [reverted ExOnlyAdmin]
  else if negb (truthy new_admin)
  then mkRes (inr PyNone) s [reverted ExZeroAddress]
  else mkRes (inr PyNone) (transferred new_admin s)
         [Success ("Admin changed from " ++ admin s ++ " to " ++ new_admin)].
Proof.
  unfold change_admin. unfold mbind at 1. unfold M_bind, try_except.
  rewrite change_admin_try_eq.
  destruct (String.eqb sender (admin s)); cbn; [|done].
  destruct (truthy new_admin); cbn; done.
Qed.

Lemma call_violated op s e :
  first_violated (preconditions s op) = Some e →
  call op s = if catches op then mkRes (inr PyNone) s [reverted e]
              else mkRes (inl e) s [].
Proof.
  destruct op as [a d|a d|p d|p d|d p h t|a n]; cbn [call preconditions catches].
  - rewrite register_doctor_eq. cbn.
    destruct (String.eqb a (admin s)); cbn; [|by intros [= <-]].
    destruct (truthy d); cbn; [done|by intros [= <-]].
  - rewrite register_patient_eq. cbn.
    destruct (String.eqb a (admin s)); cbn; [|by intros [= <-]].
    destruct (truthy d); cbn; [done|by intros [= <-]].
  - rewrite grant_access_eq. cbn.
    destruct (holds_role (persons s !! p) Patient); cbn; [|by intros [= <-]].
    destruct (holds_role (persons s !! d) Doctor); cbn; [done|by intros [= <-]].
  - rewrite revoke_access_eq. cbn.
    destruct (holds_role (persons s !! p) Patient); cbn; [|by intros [= <-]].
    destruct (is_granted s p d); cbn; [done|by intros [= <-]].
  - rewrite add_record_eq. by intros ->.
  - rewrite change_admin_eq. cbn.
    destruct (String.eqb a (admin s)); cbn; [|by intros [= <-]].
    destruct (truthy n); cbn; [done|by intros [= <-]].
Qed.

Lemma call_passed op s :
  first_violated (preconditions s op) = None →
  ∃ msg, call op s = mkRes (inr PyNone) (effect s op) [Success msg].
Proof.
  destruct op as [a d|a d|p d|p d|d p h t|a n];
    cbn [call preconditions effect].
  - rewrite register_doctor_eq. cbn.
    destruct (String.eqb a (admin s)); cbn; [|done].
    destruct (truthy d); cbn; [eauto|done].
  - rewrite register_patient_eq. cbn.
    destruct (String.eqb a (admin s)); cbn; [|done].
    destruct (truthy d); cbn; [eauto|done].
  - rewrite grant_access_eq. cbn.
    destruct (holds_role (persons s !! p) Patient); cbn; [|done].
    destruct (holds_role (persons s !! d) Doctor); cbn; [eauto|done].
  - rewrite revoke_access_eq. cbn.
    destruct (holds_role (persons s !! p) Patient); cbn; [|done].
    destruct (is_granted s p d); cbn; [eauto|done].
  - rewrite add_record_eq. intros ->. unfold added_line. eauto.
  - rewrite change_admin_eq. cbn.
    destruct (String.eqb a (admin s)); cbn; [|done].
    destruct (truthy n); cbn; [eauto|done].
Qed.

Lemma step_eq s op :
  step s op = match first_violated (preconditions s op) with
              | Some _ => s
              | None => effect s op
              end.
Proof.
  unfold step. destruct (first_violated _) as [e|] eqn:E.
  - rewrite (call_violated _ _ _ E). by destruct (catches op).
  - destruct (call_passed _ _ E) as [msg ->]. done.
Qed.

Lemma run_snoc ops op s : run (ops ++ [op]) s = step (run ops s) op.
Proof. unfold run. by rewrite foldl_app. Qed.

(** Induction over the calls that led to a state. *)
Lemma reachable_ind (P : State → Prop) :
  (∀ admin_addr, P (init admin_addr)) →
  (∀ s op, reachable s → P s → P (step s op)) →
  ∀ s, reachable s → P s.
Proof.
  intros Hinit Hstep s (a & ops & ->).
  induction ops as [|op ops IH] using rev_ind; [apply Hinit|].
  rewrite run_snoc. apply Hstep; [by exists a, ops | apply IH].
Qed.

(** [record_hash[:10]] counts characters, not bytes, and keeps a shorter
    hash whole. *)
Example prefix10_counts_characters :
  prefix10 "Hash_Xray_001" = "Hash_Xray_"
  ∧ prefix10 "h1" = "h1"
  ∧ prefix10 "ééééééééééé" = "éééééééééé"
  ∧ String.length (prefix10 "ééééééééééé") = 20.
Proof.
  vm_compute. done.
Qed.

(** ** The scripted scenario *)

(** What the calls of [run_simulation] print on the contract's behalf, and
    the ledger they leave: the write before consent, the replay, the
    stranger's [change_admin] and the write after revocation are reverted,
    one record is committed. *)
Example story_outcome t1 t2 t3 t4 :
  transcript (story t1 t2 t3 t4) (init ALICE) =
  [ Success "Doctor registered: 0xBob_Doctor";
    Success "Patient registered: 0xCharlie_Patient";
    Blocked "Transaction Reverted: access not granted by patient";
    Success "Patient 0xCharlie_Patient granted access to 0xBob_Doctor";
    Success "Record #0 added by 0xBob_Doctor. Hash: Hash_Xray_...";
    Blocked "Transaction Reverted: record hash already exists (data replay blocked)";
    Blocked "Transaction Reverted: only admin";
    Success "Patient 0xCharlie_Patient revoked access from 0xBob_Doctor";
    Blocked "Transaction Reverted: access not granted by patient" ]
  ∧ records (run (story t1 t2 t3 t4) (init ALICE))
    = [mkRecord 0 CHARLIE BOB "Hash_Xray_001" t2]
  ∧ admin (run (story t1 t2 t3 t4) (init ALICE)) = ALICE.
Proof.
  vm_compute. done.
Qed.

(** ** Replay protection *)

Lemma recorded_hashes_step s op :
  recorded_hashes s ⊆ recorded_hashes (step s op).
Proof.
  rewrite step_eq. destruct (first_violated _); [done|].
  destruct op; cbn; set_solver.
Qed.

Lemma recorded_hashes_run ops s :
  recorded_hashes s ⊆ recorded_hashes (run ops s).
Proof.
  revert s. induction ops as [|op ops IH]; intros s; cbn; [done|].
  etrans; [apply (recorded_hashes_step s op)|apply IH].
Qed.

Lemma add_record_accepted sender patient_addr record_hash now s :
  value (add_record_try sender patient_addr record_hash now s) = inr tt →
  first_violated (checks s sender patient_addr record_hash) = None.
Proof.
  rewrite add_record_try_eq. by destruct (first_violated _).
Qed.

(** C1, as stated, fails: a hash that was accepted is refused afterwards, but
    not always with the replay error.  Once the patient has revoked consent
    the same call is refused by the consent check, which comes first. *)
Lemma replay_masked_by_revoked_consent :
  let s1 := after (add_record "D" "P" "h1" 0%float consenting) in
  let s2 := run [RevokeAccess "P" "D"] s1 in
  value (add_record_try "D" "P" "h1" 0%float consenting) = inr tt
  ∧ out (add_record "D" "P" "h1" 0%float s2) = [reverted ExAccessNotGranted]
  ∧ out (add_record "D" "P" "h1" 0%float s2) ≠ [reverted ExHashExists].
Proof.
  vm_compute. repeat split. discriminate.
Qed.

(** C1 (amended): once [add_record] has accepted the hash [f], every later
    call of [add_record] with [f], by any sender, for any patient, after any
    calls in between, is refused, returns [None] and leaves the object as it
    was, so no record is appended.  The exception raised in the [try] block
    and printed by the handler is that of the earliest check that fails:
    "only doctor" when the sender is not a doctor, else "invalid patient"
    when the patient is not a patient, else "access not granted by patient"
    when consent is not true, and the replay error "record hash already
    exists (data replay blocked)" exactly when these three checks pass.  No
    call ever removes a hash from [recorded_hashes]. *)
Theorem replay_protection s d p f now ops d' p' now'
    (Hok : value (add_record_try d p f now s) = inr tt) :
  let s2 := run ops (after (add_record d p f now s)) in
  let r := add_record d' p' f now' s2 in
  let e := if negb (holds_role (persons s2 !! d') Doctor) then ExOnlyDoctor
           else if negb (holds_role (persons s2 !! p') Patient)
           then ExInvalidPatient
           else if negb (is_granted s2 p' d') then ExAccessNotGranted
           else ExHashExists in
  f ∈ recorded_hashes s2
  ∧ after r = s2
  ∧ records (after r) = records s2
  ∧ value r = inr PyNone
  ∧ value (add_record_try d' p' f now' s2) = inl e
  ∧ out r = [Blocked ("Transaction Reverted: " ++ str e)]
  ∧ str ExHashExists = "record hash already exists (data replay blocked)"
  ∧ kind ExHashExists = Some ReplayDetected
  ∧ (∀ s' op, recorded_hashes s' ⊆ recorded_hashes (step s' op))
  ∧ (∀ s' ops', recorded_hashes s' ⊆ recorded_hashes (run ops' s')).
Proof.
  intros s2 r e.
  assert (Hin : f ∈ recorded_hashes s2).
  { apply (recorded_hashes_run ops). rewrite add_record_eq.
    rewrite (add_record_accepted _ _ _ _ _ Hok). cbn. set_solver. }
  assert (Hchk : first_violated (checks s2 d' p' f) = Some e).
  { unfold checks, e. rewrite (bool_decide_eq_true_2 _ Hin). cbn.
    destruct (holds_role (persons s2 !! d') Doctor); cbn; [|done].
    destruct (holds_role (persons s2 !! p') Patient); cbn; [|done].
    by destruct (is_granted s2 p' d'). }
  subst r. rewrite add_record_eq, add_record_try_eq, Hchk. cbn.
  do 8 (split; [done|]). split.
  - intros s' op. apply recorded_hashes_step.
  - intros s' ops'. apply recorded_hashes_run.
Qed.

Lemma replay_protection_witness :
  value (add_record_try "D" "P" "h1" 0%float consenting) = inr tt
  ∧ (let s2 := run [AddRecord "D" "P" "h2" 1%float]
                   (after (add_record "D" "P" "h1" 0%float consenting)) in
     value (add_record_try "D" "P" "h3" 2%float s2) = inr tt
     ∧ value (add_record_try "D" "P" "h1" 2%float s2) = inl ExHashExists
     ∧ out (add_record "D" "P" "h1" 2%float s2)
       = [Blocked "Transaction Reverted: record hash already exists (data replay blocked)"]
     ∧ after (add_record "D" "P" "h1" 2%float s2) = s2).
Proof.
  assert (Hok : value (add_record_try "D" "P" "h1" 0%float consenting) = inr tt)
    by (vm_compute; reflexivity).
  split; [exact Hok|].
  destruct (replay_protection consenting "D" "P" "h1" 0%float
              [AddRecord "D" "P" "h2" 1%float] "D" "P" 2%float Hok)
    as (_ & Hsame & _ & _ & Htry & Hout & _).
  split; [vm_compute; reflexivity|].
  split; [exact Htry|]. split; [exact Hout | exact Hsame].
Defined.

(** ** Order of the checks, propagation of failures *)

(** C3, as stated, fails in one word: [add_record] does not return the
    error.  On a call that violates all four checks at once the method
    returns [None]; the error of the first check is only printed. *)
Lemma add_record_prints_first_error :
  let s := after (add_record "D" "P" "h1" 0%float consenting) in
  let r := add_record "P" "D" "h1" 1%float s in
  map fst (checks s "P" "D" "h1") = [false; false; false; false]
  ∧ value r = inr PyNone
  ∧ value r ≠ inl ExOnlyDoctor
  ∧ out r = [Blocked "Transaction Reverted: only doctor"].
Proof.
  vm_compute. repeat split. discriminate.
Qed.

(** C3 (amended): [add_record] tests, in this order, that the sender is a
    doctor, that the named patient is a patient, that the patient's consent
    for the sender is true and that the hash is not recorded yet.  The
    exception of the earliest test that fails is raised in the [try] block,
    caught by the handler and printed as "Transaction Reverted: " followed
    by its message: "only doctor" (Unauthorized), "invalid patient"
    (InvalidCounterparty), "access not granted by patient" (AccessDenied),
    "record hash already exists (data replay blocked)" (ReplayDetected).
    The object is left as it was and the call returns [None], not the
    error.  When no test fails the record is committed. *)
Theorem add_record_check_order sender patient_addr record_hash now s :
  let doctor_ok := holds_role (persons s !! sender) Doctor in
  let patient_ok := holds_role (persons s !! patient_addr) Patient in
  let consent_ok := is_granted s patient_addr sender in
  let fresh := negb (bool_decide (record_hash ∈ recorded_hashes s)) in
  let r := add_record sender patient_addr record_hash now s in
  match first_violated [ (doctor_ok, ExOnlyDoctor);
                         (patient_ok, ExInvalidPatient);
                         (consent_ok, ExAccessNotGranted);
                         (fresh, ExHashExists) ] with
  | Some e => value (add_record_try sender patient_addr record_hash now s) = inl e
              ∧ out r = [reverted e]
              ∧ out r = [Blocked ("Transaction Reverted: " ++ str e)]
              ∧ after r = s
              ∧ value r = inr PyNone
  | None => value (add_record_try sender patient_addr record_hash now s) = inr tt
            ∧ out r = [added_line s sender record_hash]
            ∧ after r = committed s sender patient_addr record_hash now
            ∧ value r = inr PyNone
  end
  ∧ kind ExOnlyDoctor = Some Unauthorized
  ∧ kind ExInvalidPatient = Some InvalidCounterparty
  ∧ kind ExAccessNotGranted = Some AccessDenied
  ∧ kind ExHashExists = Some ReplayDetected
  ∧ str ExOnlyDoctor = "only doctor"
  ∧ str ExInvalidPatient = "invalid patient"
  ∧ str ExAccessNotGranted = "access not granted by patient"
  ∧ str ExHashExists = "record hash already exists (data replay blocked)".
Proof.
  intros doctor_ok patient_ok consent_ok fresh r.
  split; [|done].
  subst r. rewrite add_record_eq, add_record_try_eq.
  change (first_violated (checks s sender patient_addr record_hash))
    with (first_violated [ (doctor_ok, ExOnlyDoctor);
                           (patient_ok, ExInvalidPatient);
                           (consent_ok, ExAccessNotGranted);
                           (fresh, ExHashExists) ]).
  by destruct (first_violated _).
Qed.

(** C4, as stated, fails: the exception raised by a failed check of
    [add_record] or [change_admin] is caught inside the method; the caller
    gets [None], the value a call that went through returns as well. *)
Lemma failure_caught_inside_method :
  first_violated (preconditions (init "A") (AddRecord "D" "P" "h1" 0%float))
    = Some ExOnlyDoctor
  ∧ value (call (AddRecord "D" "P" "h1" 0%float) (init "A")) = inr PyNone
  ∧ first_violated (preconditions (init "A") (ChangeAdmin "E" "E"))
    = Some ExOnlyAdmin
  ∧ value (call (ChangeAdmin "E" "E") (init "A")) = inr PyNone
  ∧ value (call (AddRecord "D" "P" "h1" 0%float) consenting) = inr PyNone
  ∧ first_violated (preconditions consenting (AddRecord "D" "P" "h1" 0%float))
    = None.
Proof.
  vm_compute. done.
Qed.

(** C4 (amended): whatever check of whatever method fails, the object is
    left exactly as it was (administrator, persons, consent, records and
    recorded hashes).  [register_doctor], [register_patient], [grant_access]
    and [revoke_access] raise the exception to their caller and print
    nothing; [add_record] and [change_admin] catch it, print the line
    "Transaction Reverted: ..." with its message and return normally.  A call
    none of whose checks fails returns and prints one success line. *)
Theorem failed_call_is_atomic op s :
  match first_violated (preconditions s op) with
  | Some e =>
      after (call op s) = s
      ∧ if catches op
        then value (call op s) = inr PyNone ∧ out (call op s) = [reverted e]
        else value (call op s) = inl e ∧ out (call op s) = []
  | None =>
      value (call op s) = inr PyNone
      ∧ after (call op s) = effect s op
      ∧ ∃ msg, out (call op s) = [Success msg]
  end.
Proof.
  destruct (first_violated (preconditions s op)) as [e|] eqn:E.
  - rewrite (call_violated _ _ _ E). by destruct (catches op).
  - destruct (call_passed _ _ E) as [msg ->]. cbn. eauto.
Qed.

(** ** Consent *)

Lemma is_granted_entry s patient doctor :
  is_granted s patient doctor = default false (consent_entry s patient doctor).
Proof.
  unfold is_granted, consent_entry.
  destruct (access_granted s !! patient); cbn; [done|by rewrite lookup_empty].
Qed.

Lemma consent_entry_with_consent b p d s p' d' :
  consent_entry (with_consent b p d s) p' d' =
  if decide (p' = p ∧ d' = d) then Some b else consent_entry s p' d'.
Proof.
  unfold consent_entry, with_consent; cbn.
  destruct (decide (p' = p)) as [->|Hp].
  - rewrite lookup_insert_eq; cbn.
    destruct (decide (d' = d)) as [->|Hd].
    + rewrite lookup_insert_eq. by rewrite decide_True.
    + rewrite lookup_insert_ne by done.
      rewrite decide_False by (by intros [_ ?]).
      destruct (access_granted s !! p); cbn; [done|by rewrite lookup_empty].
  - rewrite lookup_insert_ne by done.
    by rewrite decide_False by (by intros [? _]).
Qed.

Lemma keeps_roles_step s op :
  keeps_roles op = true →
  persons (step s op) = persons s ∧ admin (step s op) = admin s.
Proof.
  intros Hop. rewrite step_eq. destruct (first_violated _); [done|].
  by destruct op.
Qed.

Lemma keeps_roles_run ops s :
  forallb keeps_roles ops = true →
  persons (run ops s) = persons s ∧ admin (run ops s) = admin s.
Proof.
  revert s. induction ops as [|op ops IH]; intros s Hall; [done|].
  cbn [forallb] in Hall. apply andb_true_iff in Hall as [Hop Hall].
  change (run (op :: ops) s) with (run ops (step s op)).
  destruct (IH (step s op) Hall) as [-> ->].
  by apply keeps_roles_step.
Qed.

Lemma grant_access_passed p d s :
  value (grant_access p d s) = inr PyNone →
  holds_role (persons s !! p) Patient = true
  ∧ holds_role (persons s !! d) Doctor = true
  ∧ after (grant_access p d s) = with_consent true p d s.
Proof.
  rewrite grant_access_eq.
  destruct (holds_role (persons s !! p) Patient); cbn; [|done].
  destruct (holds_role (persons s !! d) Doctor); cbn; done.
Qed.

Lemma revoke_access_passed p d s :
  value (revoke_access p d s) = inr PyNone →
  holds_role (persons s !! p) Patient = true
  ∧ is_granted s p d = true
  ∧ after (revoke_access p d s) = with_consent false p d s.
Proof.
  rewrite revoke_access_eq.
  destruct (holds_role (persons s !! p) Patient); cbn; [|done].
  destruct (is_granted s p d); cbn; done.
Qed.

(** C2: a record is committed only if the consent read at that very call is
    true.  After [grant_access] went through for a pair, then any calls of
    [grant_access], [revoke_access] and [add_record] (committed or not), then
    [revoke_access] went through for the pair, [add_record] for the pair is
    refused with "access not granted by patient" (AccessDenied) and changes
    nothing. *)
Theorem consent_checked_at_every_write s0 p d between f now
    (Hgrant : value (grant_access p d s0) = inr PyNone)
    (Hbetween : forallb keeps_roles between = true)
    (Hrevoke : value (revoke_access p d
                        (run between (after (grant_access p d s0))))
               = inr PyNone) :
  let s3 := after (revoke_access p d
                     (run between (after (grant_access p d s0)))) in
  let r := add_record d p f now s3 in
  value (add_record_try d p f now s3) = inl ExAccessNotGranted
  ∧ kind ExAccessNotGranted = Some AccessDenied
  ∧ out r = [reverted ExAccessNotGranted]
  ∧ after r = s3
  ∧ (∀ s d' p' f' now',
       value (add_record_try d' p' f' now' s) = inr tt →
       is_granted s p' d' = true).
Proof.
  intros s3 r.
  apply grant_access_passed in Hgrant as (Hp & Hd & Hs1).
  apply revoke_access_passed in Hrevoke as (_ & _ & Hs3).
  destruct (keeps_roles_run between (after (grant_access p d s0)) Hbetween)
    as [Hpers _].
  assert (Hchk : first_violated (checks s3 d p f) = Some ExAccessNotGranted).
  { unfold checks. subst s3. rewrite Hs3.
    rewrite is_granted_entry, consent_entry_with_consent.
    rewrite decide_True by done.
    change (persons (with_consent false p d ?s)) with (persons s).
    rewrite Hpers, Hs1.
    change (persons (with_consent true p d ?s)) with (persons s).
    by rewrite Hp, Hd. }
  subst r. rewrite add_record_eq, add_record_try_eq, Hchk. cbn.
  repeat split.
  intros s d' p' f' now' Hacc. apply add_record_accepted in Hacc.
  unfold checks in Hacc. cbn in Hacc.
  destruct (holds_role (persons s !! d') Doctor); [|done].
  destruct (holds_role (persons s !! p') Patient); [|done].
  by destruct (is_granted s p' d').
Qed.

Lemma consent_checked_at_every_write_witness :
  let s0 := run [RegisterDoctor "A" "D"; RegisterPatient "A" "P"] (init "A") in
  let between := [AddRecord "D" "P" "h1" 0%float] in
  let s3 := after (revoke_access "P" "D"
                     (run between (after (grant_access "P" "D" s0)))) in
  records s3 = [mkRecord 0 "P" "D" "h1" 0%float]
  ∧ out (add_record "D" "P" "h2" 1%float s3) = [reverted ExAccessNotGranted]
  ∧ after (add_record "D" "P" "h2" 1%float s3) = s3.
Proof.
  intros s0 between s3.
  split; [vm_compute; reflexivity|].
  assert (Hgrant : value (grant_access "P" "D" s0) = inr PyNone)
    by (vm_compute; reflexivity).
  assert (Hbetween : forallb keeps_roles between = true) by reflexivity.
  assert (Hrevoke : value (revoke_access "P" "D"
                             (run between (after (grant_access "P" "D" s0))))
                    = inr PyNone) by (vm_compute; reflexivity).
  destruct (consent_checked_at_every_write s0 "P" "D" between "h2" 1%float
              Hgrant Hbetween Hrevoke) as (_ & _ & Hout & Hsame & _).
  split; [exact Hout | exact Hsame].
Defined.

(** C10: a call of [grant_access] or [revoke_access] that goes through
    changes the stored consent of that one (patient, doctor) pair and nothing
    else: administrator, persons, records and recorded hashes are the same,
    and so is the stored consent of every other pair.  [revoke_access] keeps
    the entry and stores [False] in it, so the pair reads false afterwards. *)
Theorem consent_calls_frame p d s :
  (value (grant_access p d s) = inr PyNone →
   let s' := after (grant_access p d s) in
   admin s' = admin s ∧ persons s' = persons s ∧ records s' = records s
   ∧ recorded_hashes s' = recorded_hashes s
   ∧ consent_entry s' p d = Some true
   ∧ ∀ p' d', (p', d') ≠ (p, d) → consent_entry s' p' d' = consent_entry s p' d')
  ∧ (value (revoke_access p d s) = inr PyNone →
     let s' := after (revoke_access p d s) in
     admin s' = admin s ∧ persons s' = persons s ∧ records s' = records s
     ∧ recorded_hashes s' = recorded_hashes s
     ∧ consent_entry s' p d = Some false
     ∧ is_granted s' p d = false
     ∧ ∀ p' d', (p', d') ≠ (p, d) → consent_entry s' p' d' = consent_entry s p' d').
Proof.
  split.
  - intros Hok s'. apply grant_access_passed in Hok as (_ & _ & Hs').
    subst s'. rewrite Hs'. do 4 (split; [done|]). split.
    + rewrite consent_entry_with_consent. by rewrite decide_True.
    + intros p' d' Hne. rewrite consent_entry_with_consent.
      rewrite decide_False; [done|]. intros [-> ->]. by apply Hne.
  - intros Hok s'. apply revoke_access_passed in Hok as (_ & _ & Hs').
    subst s'. rewrite Hs'. do 4 (split; [done|]). split; [|split].
    + rewrite consent_entry_with_consent. by rewrite decide_True.
    + rewrite is_granted_entry, consent_entry_with_consent.
      by rewrite decide_True.
    + intros p' d' Hne. rewrite consent_entry_with_consent.
      rewrite decide_False; [done|]. intros [-> ->]. by apply Hne.
Qed.

Lemma consent_calls_frame_witness :
  let s := run [RegisterDoctor "A" "D"; RegisterPatient "A" "P"] (init "A") in
  consent_entry s "P" "D" = None
  ∧ consent_entry (after (grant_access "P" "D" s)) "P" "D" = Some true
  ∧ persons (after (grant_access "P" "D" s)) = persons s
  ∧ consent_entry (after (revoke_access "P" "D" consenting)) "P" "D" = Some false
  ∧ is_granted (after (revoke_access "P" "D" consenting)) "P" "D" = false.
Proof.
  intros s.
  assert (Hgrant : value (grant_access "P" "D" s) = inr PyNone)
    by (vm_compute; reflexivity).
  assert (Hrevoke : value (revoke_access "P" "D" consenting) = inr PyNone)
    by (vm_compute; reflexivity).
  destruct (consent_calls_frame "P" "D" s) as [Hg _].
  destruct (consent_calls_frame "P" "D" consenting) as [_ Hr].
  destruct (Hg Hgrant) as (_ & Hpers & _ & _ & Hentry & _).
  destruct (Hr Hrevoke) as (_ & _ & _ & _ & Hfalse & Hread & _).
  split; [vm_compute; reflexivity|].
  split; [exact Hentry|]. split; [exact Hpers|].
  split; [exact Hfalse | exact Hread].
Defined.

(** C8: when [grant_access] goes through, calling it again with the same
    arguments goes through as well and leaves the object exactly as the first
    call left it. *)
Theorem grant_access_idempotent p d s
    (Hfirst : value (grant_access p d s) = inr PyNone) :
  let s1 := after (grant_access p d s) in
  value (grant_access p d s1) = inr PyNone
  ∧ after (grant_access p d s1) = s1.
Proof.
  intros s1. apply grant_access_passed in Hfirst as (Hp & Hd & Hs1).
  subst s1. rewrite Hs1. rewrite grant_access_eq.
  change (persons (with_consent true p d s)) with (persons s).
  rewrite Hp, Hd. cbn. split; [done|].
  unfold with_consent, set_access_granted; cbn. f_equal.
  rewrite lookup_insert_eq; cbn.
  by rewrite !insert_insert_eq.
Qed.

Lemma grant_access_idempotent_witness :
  let s := run [RegisterDoctor "A" "D"; RegisterPatient "A" "P"] (init "A") in
  value (grant_access "P" "D" s) = inr PyNone
  ∧ value (grant_access "P" "D" (after (grant_access "P" "D" s))) = inr PyNone
  ∧ after (grant_access "P" "D" (after (grant_access "P" "D" s)))
    = after (grant_access "P" "D" s).
Proof.
  intros s.
  assert (Hfirst : value (grant_access "P" "D" s) = inr PyNone)
    by (vm_compute; reflexivity).
  split; [exact Hfirst|].
  exact (grant_access_idempotent "P" "D" s Hfirst).
Defined.

(** ** Role checks *)

(** C7: a sender registered as doctor who calls [grant_access] or
    [revoke_access] gets the exception "only patient", and a sender
    registered as patient who calls [add_record] is refused with
    "only doctor" (both of kind Unauthorized); the object is not changed. *)
Theorem role_checks_exact s sender q (Hq : persons s !! sender = Some q) :
  (role q = Doctor →
   ∀ doctor_addr,
     grant_access sender doctor_addr s = mkRes (inl ExOnlyPatient) s []
     ∧ revoke_access sender doctor_addr s = mkRes (inl ExOnlyPatient) s [])
  ∧ (role q = Patient →
     ∀ patient_addr record_hash now,
       value (add_record_try sender patient_addr record_hash now s)
       = inl ExOnlyDoctor
       ∧ add_record sender patient_addr record_hash now s
         = mkRes (inr PyNone) s [reverted ExOnlyDoctor])
  ∧ kind ExOnlyPatient = Some Unauthorized
  ∧ kind ExOnlyDoctor = Some Unauthorized.
Proof.
  split; [|split; [|done]].
  - intros Hrole doctor_addr.
    rewrite grant_access_eq, revoke_access_eq, Hq. cbn. rewrite Hrole.
    by rewrite andb_false_r.
  - intros Hrole patient_addr record_hash now.
    rewrite add_record_eq, add_record_try_eq. unfold checks. rewrite Hq.
    cbn. rewrite Hrole. by rewrite andb_false_r.
Qed.

Lemma role_checks_exact_witness :
  persons consenting !! "D" = Some (mkPerson Doctor true)
  ∧ persons consenting !! "P" = Some (mkPerson Patient true)
  ∧ grant_access "D" "D" consenting = mkRes (inl ExOnlyPatient) consenting []
  ∧ revoke_access "D" "D" consenting = mkRes (inl ExOnlyPatient) consenting []
  ∧ add_record "P" "P" "h1" 0%float consenting
    = mkRes (inr PyNone) consenting [reverted ExOnlyDoctor].
Proof.
  assert (HD : persons consenting !! "D" = Some (mkPerson Doctor true))
    by (vm_compute; reflexivity).
  assert (HP : persons consenting !! "P" = Some (mkPerson Patient true))
    by (vm_compute; reflexivity).
  destruct (role_checks_exact consenting "D" _ HD) as (Hdoc & _).
  destruct (role_checks_exact consenting "P" _ HP) as (_ & Hpat & _).
  destruct (Hdoc eq_refl "D") as [Hg Hr].
  destruct (Hpat eq_refl "P" "h1" 0%float) as [_ Ha].
  split; [exact HD|]. split; [exact HP|]. split; [exact Hg|].
  split; [exact Hr | exact Ha].
Defined.

(** ** The ledger *)

Lemma records_step s op : records s `prefix_of` records (step s op).
Proof.
  rewrite step_eq. destruct (first_violated _); [done|].
  destruct op; cbn; try done. by apply prefix_app_r.
Qed.

Lemma dense_ids_step s op : dense_ids (records s) → dense_ids (records (step s op)).
Proof.
  intros Hs. rewrite step_eq. destruct (first_violated _); [done|].
  destruct op; cbn; try done.
  intros i rec Hi. apply lookup_app_Some in Hi as [Hi|[Hlen Hi]].
  - by apply Hs.
  - apply list_lookup_singleton_Some in Hi as [Hi <-]. cbn. lia.
Qed.

Lemma dense_ids_reachable s : reachable s → dense_ids (records s).
Proof.
  induction 1 as [a|s op _ IH] using reachable_ind.
  - intros i rec Hi. done.
  - by apply dense_ids_step.
Qed.

(** C5, as stated, fails in its last part: [add_record] has no [return]
    statement; a call that commits record 0 hands [None] to its caller, and
    the id is only part of the line it prints. *)
Lemma add_record_returns_none :
  let r := add_record "D" "P" "h1" 0%float consenting in
  value (add_record_try "D" "P" "h1" 0%float consenting) = inr tt
  ∧ records (after r) = [mkRecord 0 "P" "D" "h1" 0%float]
  ∧ value r = inr PyNone
  ∧ value r ≠ inr (PyInt 0)
  ∧ out r = [Success "Record #0 added by D. Hash: h1..."].
Proof.
  vm_compute. repeat split. discriminate.
Qed.

(** C5 (amended): a call of [add_record] that passes its checks appends
    exactly one record, whose id is the length the list had, whose patient,
    doctor, hash and time are those of the call, adds the hash to
    [recorded_hashes], changes nothing else, prints the id in its success
    line and returns [None].  Records are never changed or removed by any
    call, and in every reachable state each record sits at the index equal to
    its id. *)
Theorem add_record_appends sender patient_addr record_hash now s
    (Hok : value (add_record_try sender patient_addr record_hash now s) = inr tt) :
  let r := add_record sender patient_addr record_hash now s in
  records (after r)
  = (records s ++ [mkRecord (length (records s)) patient_addr sender
                            record_hash now])%list
  ∧ recorded_hashes (after r) = {[record_hash]} ∪ recorded_hashes s
  ∧ admin (after r) = admin s
  ∧ persons (after r) = persons s
  ∧ access_granted (after r) = access_granted s
  ∧ out r = [Success ("Record #" ++ pretty (length (records s)) ++ " added by "
                      ++ sender ++ ". Hash: " ++ prefix10 record_hash ++ "...")]
  ∧ value r = inr PyNone
  ∧ (∀ s' op, records s' `prefix_of` records (step s' op))
  ∧ (∀ s', reachable s' → dense_ids (records s')).
Proof.
  intros r. subst r. rewrite add_record_eq.
  rewrite (add_record_accepted _ _ _ _ _ Hok). cbn.
  do 7 (split; [done|]). split.
  - intros s' op. apply records_step.
  - intros s'. apply dense_ids_reachable.
Qed.

Lemma add_record_appends_witness :
  value (add_record_try "D" "P" "h1" 0%float consenting) = inr tt
  ∧ records (after (add_record "D" "P" "h1" 0%float consenting))
    = (records consenting ++ [mkRecord (length (records consenting)) "P" "D"
                                       "h1" 0%float])%list
  ∧ recorded_hashes (after (add_record "D" "P" "h1" 0%float consenting))
    = {[ "h1" ]} ∪ recorded_hashes consenting.
Proof.
  assert (Hok : value (add_record_try "D" "P" "h1" 0%float consenting) = inr tt)
    by (vm_compute; reflexivity).
  split; [exact Hok|].
  destruct (add_record_appends "D" "P" "h1" 0%float consenting Hok)
    as (Hrec & Hhash & _).
  split; [exact Hrec | exact Hhash].
Defined.

(** ** The administrator *)

Lemma change_admin_passed sender new_admin s :
  value (change_admin_try sender new_admin s) = inr tt →
  sender = admin s ∧ truthy new_admin = true
  ∧ change_admin sender new_admin s
    = mkRes (inr PyNone) (transferred new_admin s)
            [Success ("Admin changed from " ++ admin s ++ " to " ++ new_admin)].
Proof.
  rewrite change_admin_try_eq, change_admin_eq.
  destruct (String.eqb sender (admin s)) eqn:E; cbn; [|done].
  apply String.eqb_eq in E.
  destruct (truthy new_admin); cbn; done.
Qed.

(** C6: [change_admin] called by a sender who is not the administrator is
    refused with "only admin" (Unauthorized) and leaves the object, hence
    the administrator, as it was.  When the call goes through, the sender
    was the administrator, the new address is the administrator, it has the
    entry [{'role': 'None', 'exists': True}], the entry of the outgoing
    administrator, when there was one, has role ['None'], and nothing else
    changes. *)
Theorem change_admin_contract sender new_admin s :
  (sender ≠ admin s →
   value (change_admin_try sender new_admin s) = inl ExOnlyAdmin
   ∧ kind ExOnlyAdmin = Some Unauthorized
   ∧ change_admin sender new_admin s
     = mkRes (inr PyNone) s [reverted ExOnlyAdmin])
  ∧ (value (change_admin_try sender new_admin s) = inr tt →
     let s' := after (change_admin sender new_admin s) in
     sender = admin s
     ∧ admin s' = new_admin
     ∧ persons s' !! new_admin = Some (mkPerson NoRole true)
     ∧ (∀ q, persons s !! admin s = Some q →
             ∃ q', persons s' !! admin s = Some q' ∧ role q' = NoRole)
     ∧ (∀ k, k ≠ admin s → k ≠ new_admin → persons s' !! k = persons s !! k)
     ∧ access_granted s' = access_granted s
     ∧ records s' = records s
     ∧ recorded_hashes s' = recorded_hashes s).
Proof.
  split.
  - intros Hne. apply String.eqb_neq in Hne.
    rewrite change_admin_try_eq, change_admin_eq, Hne. done.
  - intros Hok s'. apply change_admin_passed in Hok as (Hsender & _ & Hcall).
    subst s'. rewrite Hcall. cbn.
    split; [done|]. split; [done|]. split; [apply lookup_insert_eq|].
    split; [|split; [|done]].
    + intros q Hq. destruct (decide (new_admin = admin s)) as [->|Hne].
      * rewrite lookup_insert_eq. eauto.
      * rewrite lookup_insert_ne by done. rewrite lookup_alter_eq, Hq. cbn.
        eauto.
    + intros k Hk Hk'. rewrite lookup_insert_ne by done.
      by rewrite lookup_alter_ne.
Qed.

Lemma change_admin_contract_witness :
  change_admin "E" "E" consenting
  = mkRes (inr PyNone) consenting [reverted ExOnlyAdmin]
  ∧ admin (after (change_admin "A" "D" consenting)) = "D"
  ∧ persons (after (change_admin "A" "D" consenting)) !! "D"
    = Some (mkPerson NoRole true).
Proof.
  destruct (change_admin_contract "E" "E" consenting) as [Hrefused _].
  destruct (change_admin_contract "A" "D" consenting) as [_ Hdone].
  assert (Hne : "E" ≠ admin consenting) by (vm_compute; discriminate).
  assert (Hok : value (change_admin_try "A" "D" consenting) = inr tt)
    by (vm_compute; reflexivity).
  destruct (Hrefused Hne) as (_ & _ & Hcall).
  destruct (Hdone Hok) as (_ & Hadmin & Hentry & _).
  split; [exact Hcall|]. split; [exact Hadmin | exact Hentry].
Defined.

Lemma admin_roleless_step s op :
  admin_roleless s = true →
  registers_admin s op = false →
  admin_roleless (step s op) = true.
Proof.
  unfold admin_roleless. intros Hs Hop. rewrite step_eq.
  destruct (first_violated (preconditions s op)) eqn:E; [done|].
  destruct op as [a d|a d|p d|p d|d p h t|a n]; cbn in *; try done.
  - destruct (String.eqb a (admin s)); [|done]. cbn in Hop.
    apply String.eqb_neq in Hop. by rewrite lookup_insert_ne.
  - destruct (String.eqb a (admin s)); [|done]. cbn in Hop.
    apply String.eqb_neq in Hop. by rewrite lookup_insert_ne.
  - by rewrite lookup_insert_eq.
Qed.

Lemma admin_roleless_run ops s :
  admin_roleless s = true →
  never_registers_admin ops s = true →
  admin_roleless (run ops s) = true.
Proof.
  revert s. induction ops as [|op ops IH]; intros s Hs Hops; [done|].
  cbn [never_registers_admin] in Hops.
  apply andb_true_iff in Hops as [Hop Hops]. apply negb_true_iff in Hop.
  change (run (op :: ops) s) with (run ops (step s op)).
  apply IH; [by apply admin_roleless_step | done].
Qed.

Lemma admin_exists_step s op :
  admin_exists s = true → admin_exists (step s op) = true.
Proof.
  unfold admin_exists. intros Hs. rewrite step_eq.
  destruct (first_violated (preconditions s op)) eqn:E; [done|].
  destruct op as [a d|a d|p d|p d|d p h t|a n]; cbn in *; try done.
  - destruct (decide (d = admin s)) as [->|Hne].
    + by rewrite lookup_insert_eq.
    + by rewrite lookup_insert_ne.
  - destruct (decide (d = admin s)) as [->|Hne].
    + by rewrite lookup_insert_eq.
    + by rewrite lookup_insert_ne.
  - by rewrite lookup_insert_eq.
Qed.

Lemma admin_exists_reachable s : reachable s → admin_exists s = true.
Proof.
  induction 1 as [a|s op _ IH] using reachable_ind.
  - unfold admin_exists, init; cbn. by rewrite lookup_singleton_eq.
  - by apply admin_exists_step.
Qed.

(** C9, as stated, fails: nothing stops the administrator from registering
    its own address.  After [register_doctor("A", "A")] on a fresh object of
    administrator ["A"], the administrator is still ["A"] and holds role
    ['Doctor']; it may then write records like any doctor. *)
Lemma administrator_registers_itself :
  let s := run [RegisterDoctor "A" "A"] (init "A") in
  reachable s
  ∧ value (register_doctor "A" "A" (init "A")) = inr PyNone
  ∧ admin s = "A"
  ∧ persons s !! "A" = Some (mkPerson Doctor true)
  ∧ admin_roleless s = false.
Proof.
  split; [by exists "A", [RegisterDoctor "A" "A"]|].
  vm_compute. done.
Qed.

(** C9 (amended): in every state reached from a freshly built object by a
    sequence of calls in which the administrator never registers its own
    address as doctor or patient, the administrator has an existing entry of
    role ['None'].  In every reachable state the administrator has an
    existing entry, and right after a [change_admin] that goes through the
    administrator has role ['None']. *)
Theorem administrator_roleless admin_addr ops
    (Hops : never_registers_admin ops (init admin_addr) = true) :
  admin_roleless (run ops (init admin_addr)) = true
  ∧ (∀ s, reachable s → admin_exists s = true)
  ∧ (∀ s sender new_admin,
       value (change_admin_try sender new_admin s) = inr tt →
       admin_roleless (after (change_admin sender new_admin s)) = true).
Proof.
  split; [|split].
  - apply admin_roleless_run; [|done].
    unfold admin_roleless, init; cbn. by rewrite lookup_singleton_eq.
  - apply admin_exists_reachable.
  - intros s sender new_admin Hok.
    apply change_admin_passed in Hok as (_ & _ & ->).
    unfold admin_roleless; cbn. by rewrite lookup_insert_eq.
Qed.

Lemma administrator_roleless_witness :
  let ops := [RegisterDoctor "A" "D"; RegisterPatient "A" "P";
              GrantAccess "P" "D"; ChangeAdmin "A" "D";
              RegisterDoctor "D" "A"] in
  never_registers_admin ops (init "A") = true
  ∧ admin (run ops (init "A")) = "D"
  ∧ admin_roleless (run ops (init "A")) = true.
Proof.
  intros ops.
  assert (Hops : never_registers_admin ops (init "A") = true)
    by (vm_compute; reflexivity).
  split; [exact Hops|]. split; [vm_compute; reflexivity|].
  exact (proj1 (administrator_roleless "A" ops Hops)).
Defined.

(** ** Further properties of the calls *)


(** X2: a call made from an address that is not the administrator's changes
    neither [self.persons] nor [self.admin], whatever the call and its
    arguments. *)
Theorem only_admin_changes_principals op s
    (Hsender : sender_of op ≠ admin s) :
  persons (step s op) = persons s ∧ admin (step s op) = admin s.
Proof.
  rewrite step_eq.
  destruct (first_violated (preconditions s op)) as [e|] eqn:E; [done|].
  apply String.eqb_neq in Hsender.
  destruct op as [a d|a d|p d|p d|d p h t|a n]; cbn in *; try done.
  all: by rewrite Hsender in E.
Qed.

Lemma only_admin_changes_principals_witness :
  persons (step consenting (ChangeAdmin "D" "D")) = persons consenting
  ∧ admin (step consenting (ChangeAdmin "D" "D")) = "A".
Proof.
  assert (Hsender : sender_of (ChangeAdmin "D" "D") ≠ admin consenting)
    by (vm_compute; discriminate).
  destruct (only_admin_changes_principals _ _ Hsender) as [Hp Ha].
  split; [exact Hp|]. rewrite Ha. vm_compute. reflexivity.
Defined.

(** X3: a call made from an address that is not the administrator's and has
    no entry in [self.persons] leaves the whole object as it was. *)
Theorem stranger_changes_nothing op s
    (Hsender : sender_of op ≠ admin s)
    (Hunknown : persons s !! sender_of op = None) :
  step s op = s ∧ ∀ msg, Success msg ∉ out (call op s).
Proof.
  apply String.eqb_neq in Hsender.
  assert (∃ e, first_violated (preconditions s op) = Some e) as [e E].
  { destruct op as [a d|a d|p d|p d|d p h t|a n]; cbn in *;
      rewrite ?Hsender, ?Hunknown; cbn; eauto. }
  rewrite step_eq, E. split; [done|].
  intros msg. rewrite (call_violated _ _ _ E).
  destruct (catches op); cbn; [|by apply not_elem_of_nil].
  intros Hin. apply list_elem_of_singleton in Hin. discriminate.
Qed.

Lemma stranger_changes_nothing_witness :
  step consenting (AddRecord "E" "P" "h9" 0%float) = consenting.
Proof.
  assert (Hsender : sender_of (AddRecord "E" "P" "h9" 0%float) ≠ admin consenting)
    by (vm_compute; discriminate).
  assert (Hunknown : persons consenting
                       !! sender_of (AddRecord "E" "P" "h9" 0%float) = None)
    by (vm_compute; reflexivity).
  exact (proj1 (stranger_changes_nothing _ _ Hsender Hunknown)).
Defined.

(** X4: the list of records changes only by a call of [add_record] whose
    sender is a doctor, whose patient is a patient who has granted that
    sender access, and whose hash is new; the change is one record appended
    at the end. *)
Theorem records_change_only_with_consent op s
    (Hchanged : records (step s op) ≠ records s) :
  ∃ d p h t,
    op = AddRecord d p h t
    ∧ holds_role (persons s !! d) Doctor = true
    ∧ holds_role (persons s !! p) Patient = true
    ∧ is_granted s p d = true
    ∧ (h ∉ recorded_hashes s)
    ∧ records (step s op)
      = (records s ++ [mkRecord (length (records s)) p d h t])%list.
Proof.
  rewrite step_eq in Hchanged |- *.
  destruct (first_violated (preconditions s op)) as [e|] eqn:E; [done|].
  destruct op as [a d|a d|p d|p d|d p h t|a n]; cbn in *; try done.
  exists d, p, h, t. unfold checks in E. cbn in E.
  destruct (holds_role (persons s !! d) Doctor); [|done].
  destruct (holds_role (persons s !! p) Patient); [|done].
  destruct (is_granted s p d); [|done].
  case_bool_decide; [done|]. done.
Qed.

Lemma records_change_only_with_consent_witness :
  ∃ d p h t,
    AddRecord "D" "P" "h1" 0%float = AddRecord d p h t
    ∧ is_granted consenting p d = true.
Proof.
  assert (Hchanged : records (step consenting (AddRecord "D" "P" "h1" 0%float))
                     ≠ records consenting) by (vm_compute; discriminate).
  destruct (records_change_only_with_consent _ _ Hchanged)
    as (d & p & h & t & Hop & _ & _ & Hg & _).
  exists d, p, h, t. split; [exact Hop | exact Hg].
Defined.

(** X5: the consent stored for a pair (patient, doctor) changes only by a
    call of [grant_access] or [revoke_access] made by that patient, holding
    role ['Patient'], for that doctor: neither the administrator nor the
    doctor nor another patient can grant or revoke it. *)
Theorem consent_changes_only_by_patient op s p d
    (Hchanged : consent_entry (step s op) p d ≠ consent_entry s p d) :
  (op = GrantAccess p d ∨ op = RevokeAccess p d)
  ∧ holds_role (persons s !! p) Patient = true.
Proof.
  rewrite step_eq in Hchanged.
  destruct (first_violated (preconditions s op)) as [e|] eqn:E; [done|].
  destruct op as [a x|a x|p' d'|p' d'|x y h t|a n]; cbn in *; try done.
  - rewrite consent_entry_with_consent in Hchanged.
    case_decide as Hpd; [|done]. destruct Hpd as [-> ->].
    split; [by left|].
    by destruct (holds_role (persons s !! p') Patient).
  - rewrite consent_entry_with_consent in Hchanged.
    case_decide as Hpd; [|done]. destruct Hpd as [-> ->].
    split; [by right|].
    by destruct (holds_role (persons s !! p') Patient).
Qed.

Lemma consent_changes_only_by_patient_witness :
  holds_role (persons consenting !! "P") Patient = true.
Proof.
  assert (Hchanged : consent_entry (step consenting (RevokeAccess "P" "D")) "P" "D"
                     ≠ consent_entry consenting "P" "D")
    by (vm_compute; discriminate).
  exact (proj2 (consent_changes_only_by_patient _ _ _ _ Hchanged)).
Defined.

(** ** Invariants of the reachable states *)

Lemma known_step s op a : known s a → known (step s op) a.
Proof.
  unfold known. intros Ha. rewrite step_eq.
  destruct (first_violated (preconditions s op)) as [e|] eqn:E; [done|].
  destruct op as [x d|x d|p d|p d|d p h t|x n]; cbn; try done.
  - rewrite lookup_insert_is_Some. destruct (decide (d = a)); auto.
  - rewrite lookup_insert_is_Some. destruct (decide (d = a)); auto.
  - rewrite lookup_insert_is_Some. destruct (decide (n = a)); [auto|].
    right. split; [done|]. rewrite lookup_alter. case_decide; [|done].
    subst. by apply fmap_is_Some.
Qed.

Lemma known_run ops s a : known s a → known (run ops s) a.
Proof.
  revert s. induction ops as [|op ops IH]; intros s Ha; [done|].
  change (run (op :: ops) s) with (run ops (step s op)).
  by apply IH, known_step.
Qed.

Lemma all_exist_step s op : all_exist s → all_exist (step s op).
Proof.
  unfold all_exist. intros Hs. rewrite step_eq.
  destruct (first_violated (preconditions s op)) as [e|] eqn:E; [done|].
  destruct op as [x d|x d|p d|p d|d p h t|x n]; cbn; try done.
  - intros a q. rewrite lookup_insert. case_decide; [by intros [= <-]|eauto].
  - intros a q. rewrite lookup_insert. case_decide; [by intros [= <-]|eauto].
  - intros a q. rewrite lookup_insert. case_decide; [by intros [= <-]|].
    rewrite lookup_alter. case_decide; [|eauto].
    destruct (persons s !! admin s) as [q0|] eqn:Hq0; cbn; [|done].
    intros [= <-]. cbn. eauto.
Qed.

(** X6: entries of [self.persons] are permanent.  In every reachable state
    each entry has ['exists'] true, and an address that has an entry keeps
    one through any further calls: no call deletes a principal. *)
Theorem principals_are_permanent s (Hs : reachable s) :
  all_exist s ∧ ∀ ops a, known s a → known (run ops s) a.
Proof.
  split.
  - induction Hs as [a0|s op _ IH] using reachable_ind.
    + intros a q. unfold init; cbn. rewrite lookup_singleton.
      case_decide; [by intros [= <-]|done].
    + by apply all_exist_step.
  - intros ops a. apply known_run.
Qed.

Lemma principals_are_permanent_witness :
  all_exist consenting
  ∧ known (run [ChangeAdmin "A" "P"; RegisterPatient "P" "D"] consenting) "A".
Proof.
  assert (Hs : reachable consenting).
  { by exists "A", [RegisterDoctor "A" "D"; RegisterPatient "A" "P";
                   GrantAccess "P" "D"]. }
  destruct (principals_are_permanent consenting Hs) as [Hall Hkeep].
  split; [exact Hall|]. apply Hkeep. vm_compute. eauto.
Defined.

Lemma holds_role_known s a r : holds_role (persons s !! a) r = true → known s a.
Proof. unfold known. by destruct (persons s !! a). Qed.

Lemma references_known_step s op :
  references_known s → references_known (step s op).
Proof.
  intros [Hc Hr].
  assert (Hk : ∀ a, known s a → known (step s op) a)
    by (intros a; apply known_step).
  rewrite step_eq in Hk |- *.
  destruct (first_violated (preconditions s op)) as [e|] eqn:E; [done|].
  destruct op as [x d|x d|p d|p d|d p h t|x n]; cbn in *.
  - split; [intros p0 d0 b Hb; destruct (Hc p0 d0 b Hb)
           |intros rec Hrec; destruct (Hr rec Hrec)]; split; by apply Hk.
  - split; [intros p0 d0 b Hb; destruct (Hc p0 d0 b Hb)
           |intros rec Hrec; destruct (Hr rec Hrec)]; split; by apply Hk.
  - destruct (holds_role (persons s !! p) Patient) eqn:Hp; [|done].
    destruct (holds_role (persons s !! d) Doctor) eqn:Hd; [|done].
    split; [|done]. intros p0 d0 b.
    rewrite consent_entry_with_consent. case_decide as Hpd.
    + destruct Hpd as [-> ->]. intros _.
      split; eapply holds_role_known; eauto.
    + apply Hc.
  - destruct (holds_role (persons s !! p) Patient) eqn:Hp; [|done].
    destruct (is_granted s p d) eqn:Hg; [|done].
    split; [|done]. intros p0 d0 b.
    rewrite consent_entry_with_consent. case_decide as Hpd.
    + destruct Hpd as [-> ->]. intros _.
      rewrite is_granted_entry in Hg.
      destruct (consent_entry s p d) as [b0|] eqn:Hb0; [|done].
      by eapply Hc.
    + apply Hc.
  - unfold checks in E. cbn in E.
    destruct (holds_role (persons s !! d) Doctor) eqn:Hd; [|done].
    destruct (holds_role (persons s !! p) Patient) eqn:Hp; [|done].
    split; [done|]. intros rec Hrec.
    apply elem_of_app in Hrec as [Hrec|Hrec]; [by apply Hr|].
    apply list_elem_of_singleton in Hrec as ->. cbn.
    split; eapply holds_role_known; eauto.
  - split; [intros p0 d0 b Hb; destruct (Hc p0 d0 b Hb)
           |intros rec Hrec; destruct (Hr rec Hrec)]; split; by apply Hk.
Qed.

(** X7: in every reachable state, each patient and each doctor of a stored
    consent (true or false) and of a record has an entry in
    [self.persons]. *)
Theorem references_are_known s (Hs : reachable s) : references_known s.
Proof.
  induction Hs as [a0|s op _ IH] using reachable_ind.
  - split; [|by intros rec Hrec; apply elem_of_nil in Hrec].
    intros p d b. unfold consent_entry, init; cbn. by rewrite lookup_empty.
  - by apply references_known_step.
Qed.

Lemma references_are_known_witness :
  known consenting "P" ∧ known consenting "D".
Proof.
  assert (Hs : reachable consenting).
  { by exists "A", [RegisterDoctor "A" "D"; RegisterPatient "A" "P";
                   GrantAccess "P" "D"]. }
  destruct (references_are_known consenting Hs) as [Hc _].
  apply (Hc "P" "D" true). vm_compute. reflexivity.
Defined.

Lemma ledger_consistent_step s op :
  ledger_consistent s → ledger_consistent (step s op).
Proof.
  intros [Hset Hnodup]. rewrite step_eq.
  destruct (first_violated (preconditions s op)) as [e|] eqn:E; [done|].
  destruct op as [x d|x d|p d|p d|d p h t|x n]; try done.
  unfold ledger_consistent; cbn in *. unfold checks in E. cbn in E.
  destruct (holds_role (persons s !! d) Doctor); [|done].
  destruct (holds_role (persons s !! p) Patient); [|done].
  destruct (is_granted s p d); [|done].
  case_bool_decide as Hfresh; [done|].
  rewrite fmap_app. cbn. split.
  - rewrite list_to_set_app_L, Hset. cbn.
    rewrite (right_id_L ∅ (∪)). apply (comm_L (∪)).
  - apply NoDup_app. split; [done|]. split; [|apply NoDup_singleton].
    intros h' Hin Hin'. apply list_elem_of_singleton in Hin' as ->.
    apply Hfresh. rewrite Hset. by apply elem_of_list_to_set.
Qed.

(** X8: in every reachable state [self.recorded_hashes] is exactly the set
    of the hashes of the records, no two records have the same hash, and
    there are as many records as recorded hashes. *)
Theorem ledger_is_consistent s (Hs : reachable s) :
  ledger_consistent s ∧ length (records s) = size (recorded_hashes s).
Proof.
  assert (Hl : ledger_consistent s).
  { induction Hs as [a0|s op _ IH] using reachable_ind.
    - split; [done|apply NoDup_nil_2].
    - by apply ledger_consistent_step. }
  split; [done|]. destruct Hl as [-> Hnodup].
  rewrite size_list_to_set by done. by rewrite length_fmap.
Qed.

Lemma ledger_is_consistent_witness :
  length (records (step consenting (AddRecord "D" "P" "h1" 0%float)))
  = size (recorded_hashes (step consenting (AddRecord "D" "P" "h1" 0%float))).
Proof.
  assert (Hs : reachable (step consenting (AddRecord "D" "P" "h1" 0%float))).
  { by exists "A", [RegisterDoctor "A" "D"; RegisterPatient "A" "P";
                   GrantAccess "P" "D"; AddRecord "D" "P" "h1" 0%float]. }
  exact (proj2 (ledger_is_consistent _ Hs)).
Defined.

Lemma truthy_nonempty a : truthy a = true ↔ a ≠ "".
Proof.
  unfold truthy. rewrite negb_true_iff. apply String.eqb_neq.
Qed.

Lemma zero_address_step s op :
  persons s !! "" = None ∧ admin s ≠ "" →
  persons (step s op) !! "" = None ∧ admin (step s op) ≠ "".
Proof.
  intros [Hp Ha]. rewrite step_eq.
  destruct (first_violated (preconditions s op)) as [e|] eqn:E; [done|].
  destruct op as [x d|x d|p d|p d|d p h t|x n]; cbn in *; try done.
  - destruct (String.eqb x (admin s)); [|done].
    destruct (truthy d) eqn:Hd; [|done]. apply truthy_nonempty in Hd.
    by rewrite lookup_insert_ne.
  - destruct (String.eqb x (admin s)); [|done].
    destruct (truthy d) eqn:Hd; [|done]. apply truthy_nonempty in Hd.
    by rewrite lookup_insert_ne.
  - destruct (String.eqb x (admin s)); [|done].
    destruct (truthy n) eqn:Hn; [|done]. apply truthy_nonempty in Hn.
    split; [|done]. rewrite lookup_insert_ne by done.
    by rewrite lookup_alter_ne.
Qed.

(** X9: when the object is built for a non-empty administrator address, the
    empty address never gets an entry in [self.persons], never becomes the
    administrator, and never occurs as patient or doctor of a stored consent
    or of a record, whatever calls are made. *)
Theorem zero_address_is_never_used admin_addr ops (Hadmin : admin_addr ≠ "") :
  let s := run ops (init admin_addr) in
  ¬ known s ""
  ∧ admin s ≠ ""
  ∧ (∀ p d b, consent_entry s p d = Some b → p ≠ "" ∧ d ≠ "")
  ∧ (∀ rec, rec ∈ records s → rec_patient rec ≠ "" ∧ rec_doctor rec ≠ "").
Proof.
  intros s.
  assert (Hz : persons s !! "" = None ∧ admin s ≠ "").
  { subst s. induction ops as [|op ops IH] using rev_ind.
    - split; [|done]. unfold init; cbn. by rewrite lookup_singleton_ne.
    - rewrite run_snoc. by apply zero_address_step. }
  destruct Hz as [Hz Ha].
  assert (Hnk : ¬ known s "") by (unfold known; rewrite Hz; by intros [? ?]).
  destruct (references_are_known s) as [Hc Hr]; [by exists admin_addr, ops|].
  split; [done|]. split; [done|]. split.
  - intros p d b Hb. destruct (Hc p d b Hb) as [Hkp Hkd].
    split; intros ->; by apply Hnk.
  - intros rec Hrec. destruct (Hr rec Hrec) as [Hkp Hkd].
    split; intros Heq; apply Hnk; by rewrite <- Heq.
Qed.

Lemma zero_address_is_never_used_witness :
  ¬ known (run [RegisterDoctor "A" ""; ChangeAdmin "A" ""] (init "A")) ""
  ∧ admin (run [RegisterDoctor "A" ""; ChangeAdmin "A" ""] (init "A")) ≠ "".
Proof.
  assert (Hadmin : "A" ≠ "") by discriminate.
  destruct (zero_address_is_never_used "A"
              [RegisterDoctor "A" ""; ChangeAdmin "A" ""] Hadmin)
    as (Hnk & Ha & _).
  split; [exact Hnk | exact Ha].
Defined.

(** X10: the last registration wins.  When the administrator registers a
    non-empty address as doctor and then as patient, the address holds role
    ['Patient'] and no longer ['Doctor'], the object is the one a single
    [register_patient] would have given, and registering it as patient once
    more changes nothing. *)
Theorem last_registration_wins a addr s
    (Hadmin : a = admin s) (Haddr : addr ≠ "") :
  let s1 := step s (RegisterDoctor a addr) in
  let s2 := step s1 (RegisterPatient a addr) in
  holds_role (persons s1 !! addr) Doctor = true
  ∧ holds_role (persons s2 !! addr) Patient = true
  ∧ holds_role (persons s2 !! addr) Doctor = false
  ∧ s2 = step s (RegisterPatient a addr)
  ∧ step s2 (RegisterPatient a addr) = s2.
Proof.
  intros s1 s2. apply truthy_nonempty in Haddr.
  assert (Hs1 : s1 = set_persons (<[addr := mkPerson Doctor true]> (persons s)) s).
  { subst s1. rewrite step_eq. cbn. by rewrite Hadmin, String.eqb_refl, Haddr. }
  assert (Hreg : ∀ s0, admin s0 = admin s →
            step s0 (RegisterPatient a addr)
            = set_persons (<[addr := mkPerson Patient true]> (persons s0)) s0).
  { intros s0 Hs0. rewrite step_eq. cbn.
    by rewrite Hadmin, Hs0, String.eqb_refl, Haddr. }
  assert (Hs2 : s2 = set_persons (<[addr := mkPerson Patient true]> (persons s)) s).
  { subst s2. rewrite Hreg by (by rewrite Hs1). rewrite Hs1.
    unfold set_persons; cbn. by rewrite insert_insert_eq. }
  split; [by rewrite Hs1; cbn; rewrite lookup_insert_eq|].
  split; [by rewrite Hs2; cbn; rewrite lookup_insert_eq|].
  split; [by rewrite Hs2; cbn; rewrite lookup_insert_eq|].
  split; [by rewrite Hreg|].
  rewrite Hreg by (by rewrite Hs2). rewrite Hs2.
  unfold set_persons; cbn. by rewrite insert_insert_eq.
Qed.

Lemma last_registration_wins_witness :
  holds_role (persons (step (step consenting (RegisterDoctor "A" "P"))
                            (RegisterPatient "A" "P")) !! "P") Patient = true
  ∧ step (step consenting (RegisterDoctor "A" "P")) (RegisterPatient "A" "P")
    = step consenting (RegisterPatient "A" "P").
Proof.
  assert (Hadmin : "A" = admin consenting) by (vm_compute; reflexivity).
  assert (Haddr : "P" ≠ "") by discriminate.
  destruct (last_registration_wins "A" "P" consenting Hadmin Haddr)
    as (_ & Hp & _ & Heq & _).
  split; [exact Hp | exact Heq].
Defined.

(** X11: consent outlives a change of role.  When a doctor who holds a
    patient's consent is registered as patient by the administrator, the
    consent stays stored as true while [add_record] by that address is
    refused with "only doctor"; once the address is registered as doctor
    again, [add_record] for that patient commits without a new grant. *)
Theorem consent_outlives_role_change a p d h t s
    (Hadmin : a = admin s) (Hd : d ≠ "") (Hpd : p ≠ d)
    (Hp : holds_role (persons s !! p) Patient = true)
    (Hgranted : is_granted s p d = true)
    (Hfresh : h ∉ recorded_hashes s) :
  let s1 := step s (RegisterPatient a d) in
  let s2 := step s1 (RegisterDoctor a d) in
  is_granted s1 p d = true
  ∧ add_record d p h t s1 = mkRes (inr PyNone) s1 [reverted ExOnlyDoctor]
  ∧ value (add_record_try d p h t s2) = inr tt
  ∧ records (step s2 (AddRecord d p h t))
    = (records s ++ [mkRecord (length (records s)) p d h t])%list.
Proof.
  intros s1 s2. apply truthy_nonempty in Hd.
  assert (Hs1 : s1 = set_persons (<[d := mkPerson Patient true]> (persons s)) s).
  { subst s1. rewrite step_eq. cbn. by rewrite Hadmin, String.eqb_refl, Hd. }
  assert (Hs2 : s2 = set_persons (<[d := mkPerson Doctor true]> (persons s)) s).
  { subst s2. rewrite step_eq, Hs1. cbn.
    rewrite Hadmin, String.eqb_refl, Hd. cbn.
    unfold set_persons; cbn. by rewrite insert_insert_eq. }
  assert (Hchk : first_violated (checks s2 d p h) = None).
  { rewrite Hs2. unfold checks, is_granted in *; cbn.
    rewrite lookup_insert_eq, lookup_insert_ne by done.
    rewrite Hp, Hgranted. cbn. by rewrite bool_decide_eq_false_2. }
  split; [by rewrite Hs1|]. split; [|split].
  - rewrite add_record_eq. rewrite Hs1 at 1. unfold checks; cbn.
    by rewrite lookup_insert_eq.
  - by rewrite add_record_try_eq, Hchk.
  - rewrite step_eq. cbn [preconditions effect]. rewrite Hchk. by rewrite Hs2.
Qed.

Lemma consent_outlives_role_change_witness :
  is_granted (step consenting (RegisterPatient "A" "D")) "P" "D" = true
  ∧ value (add_record_try "D" "P" "h1" 0%float
             (step (step consenting (RegisterPatient "A" "D"))
                   (RegisterDoctor "A" "D"))) = inr tt.
Proof.
  assert (Hadmin : "A" = admin consenting) by (vm_compute; reflexivity).
  assert (Hd : "D" ≠ "") by discriminate.
  assert (Hpd : "P" ≠ "D") by discriminate.
  assert (Hp : holds_role (persons consenting !! "P") Patient = true)
    by (vm_compute; reflexivity).
  assert (Hgranted : is_granted consenting "P" "D" = true)
    by (vm_compute; reflexivity).
  assert (Hfresh : "h1" ∉ recorded_hashes consenting)
    by (apply (bool_decide_eq_false_1 _); vm_compute; reflexivity).
  destruct (consent_outlives_role_change "A" "P" "D" "h1" 0%float consenting
              Hadmin Hd Hpd Hp Hgranted Hfresh) as (Hg & _ & Hok & _).
  split; [exact Hg | exact Hok].
Defined.

(** ** The administrator's seat, consent round trips *)

(** X12: handing over the administrator's seat strips both parties.  After
    a [change_admin] that goes through, the new administrator holds no role:
    its [add_record] is refused with "only doctor" and its [grant_access]
    raises "only patient", even if it was a doctor or a patient before; and
    the former administrator, when it is another address, is refused by
    [register_doctor], [register_patient] and [change_admin]. *)
Theorem change_admin_strips_both a n s
    (Hok : value (change_admin_try a n s) = inr tt) :
  let s' := after (change_admin a n s) in
  (∀ p h t, add_record n p h t s' = mkRes (inr PyNone) s' [reverted ExOnlyDoctor])
  ∧ (∀ d, grant_access n d s' = mkRes (inl ExOnlyPatient) s' [])
  ∧ (a ≠ n →
     ∀ x, register_doctor a x s' = mkRes (inl ExOnlyAdmin) s' []
          ∧ register_patient a x s' = mkRes (inl ExOnlyAdmin) s' []
          ∧ change_admin a x s' = mkRes (inr PyNone) s' [reverted ExOnlyAdmin]).
Proof.
  intros s'. apply change_admin_passed in Hok as (_ & _ & Hcall).
  assert (Hn : persons s' !! n = Some (mkPerson NoRole true)).
  { subst s'. rewrite Hcall. cbn. apply lookup_insert_eq. }
  assert (Ha : admin s' = n) by (subst s'; by rewrite Hcall).
  clearbody s'. split; [|split].
  - intros p h t. rewrite add_record_eq. unfold checks. by rewrite Hn.
  - intros d. rewrite grant_access_eq. by rewrite Hn.
  - intros Hne x. apply String.eqb_neq in Hne.
    rewrite register_doctor_eq, register_patient_eq, change_admin_eq.
    by rewrite Ha, Hne.
Qed.

Lemma change_admin_strips_both_witness :
  let s' := after (change_admin "A" "D" consenting) in
  is_granted s' "P" "D" = true
  ∧ add_record "D" "P" "h1" 0%float s'
    = mkRes (inr PyNone) s' [reverted ExOnlyDoctor]
  ∧ register_doctor "A" "D" s' = mkRes (inl ExOnlyAdmin) s' [].
Proof.
  intros s'.
  assert (Hok : value (change_admin_try "A" "D" consenting) = inr tt)
    by (vm_compute; reflexivity).
  destruct (change_admin_strips_both "A" "D" consenting Hok)
    as (Hadd & _ & Hold).
  assert (Hne : "A" ≠ "D") by discriminate.
  split; [vm_compute; reflexivity|].
  split; [exact (Hadd "P" "h1" 0%float)|].
  exact (proj1 (Hold Hne "D")).
Defined.

Lemma with_consent_restore p d s inner :
  access_granted s !! p = Some inner →
  inner !! d = Some true →
  with_consent true p d (with_consent false p d s) = s.
Proof.
  intros Hp Hd. destruct s as [a ps ag rs hs]. cbn in *.
  unfold with_consent, set_access_granted; cbn. f_equal.
  rewrite lookup_insert_eq, Hp. cbn.
  rewrite !insert_insert_eq.
  by rewrite (insert_id inner), (insert_id ag).
Qed.

(** X13: granting again undoes a revocation.  When [revoke_access] goes
    through for a pair whose doctor still holds role ['Doctor'], a following
    [grant_access] for the pair goes through and gives back exactly the
    object that was there before the revocation. *)
Theorem grant_undoes_revoke p d s
    (Hrevoked : value (revoke_access p d s) = inr PyNone)
    (Hdoctor : holds_role (persons s !! d) Doctor = true) :
  let s1 := after (revoke_access p d s) in
  is_granted s1 p d = false
  ∧ value (grant_access p d s1) = inr PyNone
  ∧ after (grant_access p d s1) = s.
Proof.
  intros s1. apply revoke_access_passed in Hrevoked as (Hp & Hg & Hs1).
  apply is_granted_lookup in Hg as (inner & Hin & Hd).
  subst s1. rewrite Hs1, grant_access_eq.
  change (persons (with_consent false p d s)) with (persons s).
  rewrite Hp, Hdoctor. cbn. split; [|split; [done|]].
  - rewrite is_granted_entry, consent_entry_with_consent.
    by rewrite decide_True.
  - by apply (with_consent_restore p d s inner).
Qed.

Lemma grant_undoes_revoke_witness :
  after (grant_access "P" "D" (after (revoke_access "P" "D" consenting)))
  = consenting.
Proof.
  assert (Hrevoked : value (revoke_access "P" "D" consenting) = inr PyNone)
    by (vm_compute; reflexivity).
  assert (Hdoctor : holds_role (persons consenting !! "D") Doctor = true)
    by (vm_compute; reflexivity).
  exact (proj2 (proj2 (grant_undoes_revoke "P" "D" consenting
                         Hrevoked Hdoctor))).
Defined.

(** X14: [revoke_access] by a patient for a pair whose consent is not
    stored as true (no row for the patient, no entry for the doctor, or an
    entry holding [False]) raises "not granted" and changes nothing; so a
    second [revoke_access] right after one that went through is refused. *)
Theorem revoke_needs_a_grant p d s
    (Hp : holds_role (persons s !! p) Patient = true)
    (Hentry : consent_entry s p d ≠ Some true) :
  revoke_access p d s = mkRes (inl ExNotGranted) s []
  ∧ (∀ s0, value (revoke_access p d s0) = inr PyNone →
           revoke_access p d (after (revoke_access p d s0))
           = mkRes (inl ExNotGranted) (after (revoke_access p d s0)) []).
Proof.
  split.
  - rewrite revoke_access_eq, Hp, is_granted_entry. cbn.
    by destruct (consent_entry s p d) as [[]|].
  - intros s0 Hok. apply revoke_access_passed in Hok as (Hp0 & _ & ->).
    rewrite revoke_access_eq.
    change (persons (with_consent false p d s0)) with (persons s0).
    rewrite Hp0, is_granted_entry, consent_entry_with_consent.
    by rewrite decide_True.
Qed.

Lemma revoke_needs_a_grant_witness :
  consent_entry consenting "P" "E" = None
  ∧ revoke_access "P" "E" consenting = mkRes (inl ExNotGranted) consenting [].
Proof.
  assert (Hp : holds_role (persons consenting !! "P") Patient = true)
    by (vm_compute; reflexivity).
  assert (Hnone : consent_entry consenting "P" "E" = None)
    by (vm_compute; reflexivity).
  assert (Hentry : consent_entry consenting "P" "E" ≠ Some true)
    by (rewrite Hnone; discriminate).
  split; [exact Hnone|].
  exact (proj1 (revoke_needs_a_grant "P" "E" consenting Hp Hentry)).
Defined.

Lemma step_register_doctor s a d :
  a = admin s → d ≠ "" →
  step s (RegisterDoctor a d)
  = set_persons (<[d := mkPerson Doctor true]> (persons s)) s.
Proof.
  intros -> Hd. apply truthy_nonempty in Hd.
  rewrite step_eq. cbn [preconditions effect first_violated].
  by rewrite String.eqb_refl, Hd.
Qed.

Lemma step_register_patient s a p :
  a = admin s → p ≠ "" →
  step s (RegisterPatient a p)
  = set_persons (<[p := mkPerson Patient true]> (persons s)) s.
Proof.
  intros -> Hp. apply truthy_nonempty in Hp.
  rewrite step_eq. cbn [preconditions effect first_violated].
  by rewrite String.eqb_refl, Hp.
Qed.

Lemma step_grant_access s p d :
  holds_role (persons s !! p) Patient = true →
  holds_role (persons s !! d) Doctor = true →
  step s (GrantAccess p d) = with_consent true p d s.
Proof.
  intros Hp Hd. rewrite step_eq. cbn [preconditions effect first_violated].
  by rewrite Hp, Hd.
Qed.

Lemma step_add_record s d p h t :
  holds_role (persons s !! d) Doctor = true →
  holds_role (persons s !! p) Patient = true →
  is_granted s p d = true →
  h ∉ recorded_hashes s →
  step s (AddRecord d p h t) = committed s d p h t.
Proof.
  intros Hd Hp Hg Hh. rewrite step_eq.
  cbn [preconditions effect]. unfold checks.
  rewrite Hd, Hp, Hg, (bool_decide_eq_false_2 _ Hh). done.
Qed.

(** X15: the whole path works for any addresses.  On a fresh object whose
    administrator is [a], for a non-empty doctor address and a non-empty,
    different patient address, registering both, granting and writing a
    record all go through; the ledger then holds that one record with id 0
    and the one hash.  The administrator may itself be the doctor or the
    patient. *)
Theorem first_record_for_any_addresses a d p h t
    (Hd : d ≠ "") (Hp : p ≠ "") (Hdp : d ≠ p) :
  let s := run [RegisterDoctor a d; RegisterPatient a p;
                GrantAccess p d; AddRecord d p h t] (init a) in
  records s = [mkRecord 0 p d h t]
  ∧ recorded_hashes s = {[h]}
  ∧ is_granted s p d = true
  ∧ admin s = a.
Proof.
  intros s. subst s. unfold run. cbn [foldl].
  rewrite (step_register_doctor (init a)) by done.
  rewrite step_register_patient by done.
  set (s2 := set_persons _ (set_persons _ (init a))).
  assert (Hpp : holds_role (persons s2 !! p) Patient = true).
  { subst s2. cbn. by rewrite lookup_insert_eq. }
  assert (Hpd : holds_role (persons s2 !! d) Doctor = true).
  { subst s2. cbn. rewrite lookup_insert_ne by done.
    by rewrite lookup_insert_eq. }
  rewrite step_grant_access by done.
  assert (Hg : is_granted (with_consent true p d s2) p d = true).
  { rewrite is_granted_entry, consent_entry_with_consent.
    by rewrite decide_True. }
  rewrite step_add_record; [|done|done|done|apply not_elem_of_empty].
  cbn. split; [done|]. split; [by rewrite (right_id_L ∅ (∪))|].
  split; [|done]. exact Hg.
Qed.

Lemma first_record_for_any_addresses_witness :
  records (run [RegisterDoctor "A" "A"; RegisterPatient "A" "P";
                GrantAccess "P" "A"; AddRecord "A" "P" "h" 0%float] (init "A"))
  = [mkRecord 0 "P" "A" "h" 0%float].
Proof.
  assert (Hd : "A" ≠ "") by discriminate.
  assert (Hp : "P" ≠ "") by discriminate.
  assert (Hdp : "A" ≠ "P") by discriminate.
  exact (proj1 (first_record_for_any_addresses "A" "A" "P" "h" 0%float
                  Hd Hp Hdp)).
Defined.

(** ** The fresh object *)

Lemma init_holds_no_role a x r :
  r ≠ NoRole → holds_role (persons (init a) !! x) r = false.
Proof.
  intros Hr. unfold init; cbn. rewrite lookup_singleton.
  case_decide; [|done]. cbn. by destruct r.
Qed.

(** X16: on the object [__init__] builds nobody is doctor or patient: every
    [add_record] is reverted with "only doctor" and every [grant_access] and
    [revoke_access] raises "only patient", whoever calls, the administrator
    included; and a call from any address but the administrator's leaves the
    object as built. *)
Theorem fresh_object_obeys_only_admin a op :
  (keeps_roles op = true → step (init a) op = init a)
  ∧ (sender_of op ≠ a → step (init a) op = init a)
  ∧ (∀ x p h t,
       add_record x p h t (init a)
       = mkRes (inr PyNone) (init a) [reverted ExOnlyDoctor])
  ∧ (∀ x d,
       grant_access x d (init a) = mkRes (inl ExOnlyPatient) (init a) []
       ∧ revoke_access x d (init a) = mkRes (inl ExOnlyPatient) (init a) []).
Proof.
  assert (Hadd : ∀ x p h t,
            add_record x p h t (init a)
            = mkRes (inr PyNone) (init a) [reverted ExOnlyDoctor]).
  { intros x p h t. rewrite add_record_eq. unfold checks.
    by rewrite init_holds_no_role. }
  assert (Hconsent : ∀ x d,
            grant_access x d (init a) = mkRes (inl ExOnlyPatient) (init a) []
            ∧ revoke_access x d (init a) = mkRes (inl ExOnlyPatient) (init a) []).
  { intros x d. rewrite grant_access_eq, revoke_access_eq.
    by rewrite init_holds_no_role. }
  split; [|split; [|done]].
  - intros Hop. unfold step.
    destruct op as [x d|x d|p d|p d|d p h t|x n]; try done; cbn [call].
    + by rewrite (proj1 (Hconsent p d)).
    + by rewrite (proj2 (Hconsent p d)).
    + by rewrite Hadd.
  - intros Hsender. unfold step.
    destruct op as [x d|x d|p d|p d|d p h t|x n]; cbn [call sender_of] in *.
    + apply String.eqb_neq in Hsender.
      rewrite register_doctor_eq. cbn. by rewrite Hsender.
    + apply String.eqb_neq in Hsender.
      rewrite register_patient_eq. cbn. by rewrite Hsender.
    + by rewrite (proj1 (Hconsent p d)).
    + by rewrite (proj2 (Hconsent p d)).
    + by rewrite Hadd.
    + apply String.eqb_neq in Hsender.
      rewrite change_admin_eq. cbn. by rewrite Hsender.
Qed.

Lemma fresh_object_obeys_only_admin_witness :
  step (init "A") (GrantAccess "A" "A") = init "A"
  ∧ step (init "A") (RegisterDoctor "E" "E") = init "A".
Proof.
  destruct (fresh_object_obeys_only_admin "A" (GrantAccess "A" "A"))
    as (Hkeeps & _).
  destruct (fresh_object_obeys_only_admin "A" (RegisterDoctor "E" "E"))
    as (_ & Hsender & _).
  split; [apply Hkeeps; reflexivity | apply Hsender; discriminate].
Defined.

(** ** The console *)

Lemma string_length_app (a b : string) :
  String.length (a ++ b) = String.length a + String.length b.
Proof. induction a as [|c a IH]; [done|]. simpl. by f_equal. Qed.

Lemma string_app_inv_tail (a b c : string) : a ++ c = b ++ c → a = b.
Proof.
  revert b. induction a as [|x a IH]; intros [|y b] H; [done|..].
  - apply (f_equal String.length) in H. rewrite !string_length_app in H.
    change (String.length (String y b)) with (S (String.length b)) in H.
    change (String.length "") with 0 in H. lia.
  - apply (f_equal String.length) in H. rewrite !string_length_app in H.
    change (String.length (String x a)) with (S (String.length a)) in H.
    change (String.length "") with 0 in H. lia.
  - injection H as -> H. f_equal. by apply IH.
Qed.

(** X17: what reaches the console tells the three kinds of contract lines
    apart and gives the message back: two lines are printed as the same text
    only if they are the same line.  A reverted transaction is never printed
    as a success, whatever the messages. *)
Theorem render_tells_lines_apart l l' :
  (render l = render l' ↔ l = l')
  ∧ (∀ msg msg', print_fail msg ≠ print_success msg')
  ∧ (∀ msg msg', print_info msg ≠ print_success msg').
Proof.
  split; [split; [|by intros ->]|split; intros msg msg' H; discriminate H].
  destruct l as [m|m|m], l' as [m'|m'|m']; intros H; try discriminate H.
  all: injection H as H; f_equal; by apply (string_app_inv_tail _ _ Colors.ENDC).
Qed.

Lemma render_tells_lines_apart_witness :
  render (reverted ExHashExists) ≠ render (added_line consenting "D" "h1").
Proof.
  intros H.
  apply (proj1 (proj1 (render_tells_lines_apart _ _))) in H.
  discriminate H.
Defined.

(** ** The script *)

(** X18: [run_simulation] runs to its end for any clock readings: no call
    raises into the script.  It prints the text below, and leaves the
    contract with Alice as administrator, the one record written by Bob for
    Charlie at the second attempt, its hash recorded, and Charlie's consent
    for Bob stored as false. *)
Theorem run_simulation_outcome t1 t2 t3 t4 :
  let r := run_simulation t1 t2 t3 t4 in
  escaped r = None
  ∧ admin (contract r) = ALICE
  ∧ records (contract r) = [mkRecord 0 CHARLIE BOB "Hash_Xray_001" t2]
  ∧ recorded_hashes (contract r) = {[ "Hash_Xray_001" ]}
  ∧ consent_entry (contract r) CHARLIE BOB = Some false
  ∧ console r =
    [ Colors.BOLD ++ "Starting 'HealthAuthRecords' Smart Contract Simulation..."
      ++ Colors.ENDC;
      print_info "Contract Deployed. Admin is 0xAlice_Admin";
      print_step "SCENE 1: Setup & Registration";
      print_success "Doctor registered: 0xBob_Doctor";
      print_success "Patient registered: 0xCharlie_Patient";
      print_step "SCENE 2: Access Control";
      print_info "Dr. Bob tries to write data before Charlie grants access...";
      print_fail "Transaction Reverted: access not granted by patient";
      print_info "Charlie grants access now...";
      print_success "Patient 0xCharlie_Patient granted access to 0xBob_Doctor";
      print_info "Dr. Bob tries to write data again...";
      print_success "Record #0 added by 0xBob_Doctor. Hash: Hash_Xray_...";
      print_step "SCENE 3: The Replay Attack";
      print_attack "Eve intercepts the transaction for 'Hash_Xray_001'.";
      print_attack "Eve tries to replay (re-submit) the exact same data to confuse the system.";
      print_fail "Transaction Reverted: record hash already exists (data replay blocked)";
      print_info "The contract logic `require(!recordedHashes[recordHash])` prevented duplication.";
      print_step "SCENE 4: Privilege Escalation Attempt";
      print_attack "Eve is tired of games. She attempts to call `changeAdmin` to make herself the boss.";
      print_fail "Transaction Reverted: only admin";
      print_info "The `onlyAdmin` modifier successfully blocked Eve.";
      print_step "SCENE 5: Revoking Access";
      print_info "Charlie is unhappy with Dr. Bob. He revokes access.";
      print_success "Patient 0xCharlie_Patient revoked access from 0xBob_Doctor";
      print_info "Dr. Bob tries to add a new record (Hash_BloodTest_002)...";
      print_fail "Transaction Reverted: access not granted by patient";
      print_step "SIMULATION COMPLETE" ].
Proof.
  intros r. subst r. repeat split; vm_compute; reflexivity.
Qed.
